(** * Skill maintenance scripts: a shallow embedding

    The repository holds three stand-alone Python scripts:
    - [skills/adk_developer/scripts/update_skill.py]   (module [ADK]),
    - [skills/a2ui_developer/scripts/update_skill.py]  (module [A2UI]),
    - [skills/agent_engine_terraform_deployer/scripts/prepare_agent.py]
      (module [Prepare]).

    The scripts are sequences of file-system operations, calls of external
    commands and prints.  They are embedded as computations in a state and
    exception monad over an explicit file tree.

    What is modelled, and how:
    - The file system is the trees below the paths a script works on: the
      repository cache and the skill folder for the update scripts, the
      agent directory for the preparation utility.  Each of them is there
      or not ([option node]); the directories above them exist, the cache
      and the skill folder do not overlap.  Entries are regular files and
      directories; there are no links, no permissions and no I/O errors.
    - A file holds a string of bytes, and a text is the string of its
      UTF-8 bytes.  A file is read as Python reads it on a POSIX system
      with a UTF-8 locale: bytes that are not well-formed UTF-8 raise
      [UnicodeDecodeError], CR LF and CR become LF; nothing is changed on
      writing.  The texts written are texts Python can encode, and standard
      output takes every line.  [str.strip] removes the ASCII white space.
    - Paths below the cache and the skill folder are relative, with names
      for components: [pathlib] drops empty components and [.]; a path that
      starts with [/] or has a component [..] leaves the tree it is
      resolved in, and a statement about every path says so ([within]).
    - What an external command does is a parameter of the run ([sh]): its
      exit status and what it leaves in its working directory, which a
      command that fails may have changed as well.  So is what [gcloud]
      prints, whether [vertexai] can be imported and what the hosted model
      answers.
    - The update scripts record what they do in a trace: the lines they
      print and the library calls they make.  The events other than [Print]
      are there to state properties; the scripts cannot observe them. *)

From Stdlib Require Import Ascii.
From stdpp Require Import gmap strings list sorting pretty.

(** ** Python string operations used by the scripts *)

Module Str.

Definition LF : ascii := "010"%char.
Definition CR : ascii := "013"%char.
Definition nl : string := String LF "".

(** [str.isspace] on the ASCII range. *)
Definition isspace (c : ascii) : bool :=
  match c with
  | "009" | "010" | "011" | "012" | "013"
  | "028" | "029" | "030" | "031" | " " => true
  | _ => false
  end%char.

Definition is_empty (s : string) : bool :=
  match s with "" => true | _ => false end.

Fixpoint lstrip (s : string) : string :=
  match s with
  | String c s' => if isspace c then lstrip s' else s
  | "" => ""
  end.

Fixpoint rstrip (s : string) : string :=
  match s with
  | String c s' =>
      let r := rstrip s' in
      if isspace c && is_empty r then "" else String c r
  | "" => ""
  end.

(** [s.strip()] *)
Definition strip (s : string) : string := rstrip (lstrip s).

(** [s.startswith(p)] *)
Fixpoint startswith (p s : string) : bool :=
  match p, s with
  | "", _ => true
  | String a p', String b s' => if Ascii.eqb a b then startswith p' s' else false
  | String _ _, "" => false
  end.

(** [sub in s] *)
Fixpoint contains (sub s : string) : bool :=
  startswith sub s ||
  match s with
  | String _ s' => contains sub s'
  | "" => false
  end.

(** [c in s] for a single character. *)
Fixpoint has_char (c : ascii) (s : string) : bool :=
  match s with
  | String a s' => Ascii.eqb a c || has_char c s'
  | "" => false
  end.

(** [s.split(c)] for a one-character separator: never the empty list. *)
Fixpoint split (c : ascii) (s : string) : list string :=
  match s with
  | "" => [""]
  | String a s' =>
      if Ascii.eqb a c then "" :: split c s'
      else match split c s' with
           | p :: ps => String a p :: ps
           | [] => [String a ""]
           end
  end.

(** [s.split(c, 1)] on a string that contains [c]: the text before the
    first [c] and the text after it. *)
Fixpoint split1 (c : ascii) (s : string) : string * string :=
  match s with
  | "" => ("", "")
  | String a s' =>
      if Ascii.eqb a c then ("", s')
      else let '(k, v) := split1 c s' in (String a k, v)
  end.

(** Text mode with universal newlines: on reading, CR LF and a lone CR
    both become LF.  [pendingcr] tells that the previous character was a
    CR, already turned into LF. *)
Fixpoint decode_newlines (pendingcr : bool) (s : string) : string :=
  match s with
  | "" => ""
  | String c s' =>
      if Ascii.eqb c CR then String LF (decode_newlines true s')
      else if Ascii.eqb c LF then
        if pendingcr then decode_newlines false s'
        else String LF (decode_newlines false s')
      else String c (decode_newlines false s')
  end.

Definition universal_newlines : string → string := decode_newlines false.

(** The lines of a text, each with its terminating LF (the last one may
    lack it), as iterating over a file yields them. *)
Fixpoint lines (s : string) : list string :=
  match s with
  | "" => []
  | String c s' =>
      if Ascii.eqb c LF then nl :: lines s'
      else match lines s' with
           | l :: ls => String c l :: ls
           | [] => [String c ""]
           end
  end.

(** [''.join(l)] *)
Definition concat (l : list string) : string := foldr String.app "" l.

(** Path components of a relative path written with [/], as [pathlib]
    keeps them: empty components and [.] are dropped. *)
Definition components (s : string) : list string :=
  filter (λ c, c ≠ "" ∧ c ≠ ".") (split "/"%char s).

(** [bytes.decode("utf-8")] succeeds: the bytes are well-formed UTF-8 (no
    overlong form, no surrogate, nothing above U+10FFFF).  [need] is the
    number of continuation bytes still due, [lo] and [hi] bound the next
    one. *)
Fixpoint utf8_from (need : nat) (lo hi : N) (s : string) : bool :=
  match s with
  | "" => match need with O => true | S _ => false end
  | String c s' =>
      let b := N_of_ascii c in
      match need with
      | O =>
          if N.ltb b 128 then utf8_from 0 128 191 s'
          else if N.leb 194 b && N.leb b 223 then utf8_from 1 128 191 s'
          else if N.eqb b 224 then utf8_from 2 160 191 s'
          else if N.leb 225 b && N.leb b 236 then utf8_from 2 128 191 s'
          else if N.eqb b 237 then utf8_from 2 128 159 s'
          else if N.leb 238 b && N.leb b 239 then utf8_from 2 128 191 s'
          else if N.eqb b 240 then utf8_from 3 144 191 s'
          else if N.leb 241 b && N.leb b 243 then utf8_from 3 128 191 s'
          else if N.eqb b 244 then utf8_from 3 128 143 s'
          else false
      | S n => N.leb lo b && N.leb b hi && utf8_from n 128 191 s'
      end
  end.

Definition utf8 (s : string) : bool := utf8_from 0 128 191 s.

End Str.

(** ** File trees

    A directory is its list of named entries.  The scripts reach the file
    system through a few roots (the repository cache, the skill folder, the
    agent directory); a root is an [option node]: [None] when nothing is at
    that path. *)

#[warnings="-register-all"] Inductive node :=
| File (data : string)
| Dir (entries : list (string * node)).

(** The entry called [k], if any. *)
Fixpoint entry (k : string) (es : list (string * node)) : option node :=
  match es with
  | [] => None
  | (k', n) :: es' => if decide (k' = k) then Some n else entry k es'
  end.

Definition remove_entry (k : string) (es : list (string * node)) :
    list (string * node) :=
  filter (λ kn, kn.1 ≠ k) es.

(** Replace the entry called [k], or add it at the end. *)
Fixpoint set_entry (k : string) (n : node) (es : list (string * node)) :
    list (string * node) :=
  match es with
  | [] => [(k, n)]
  | (k', n') :: es' =>
      if decide (k' = k) then (k, n) :: es' else (k', n') :: set_entry k n es'
  end.

Definition put_entry (k : string) (c : option node) (es : list (string * node)) :
    list (string * node) :=
  match c with
  | Some n => set_entry k n es
  | None => remove_entry k es
  end.

(** What is at the relative path [p] below a root. *)
Fixpoint resolve (p : list string) (r : option node) : option node :=
  match p with
  | [] => r
  | k :: p' =>
      match r with
      | Some (Dir es) => resolve p' (entry k es)
      | _ => None
      end
  end.

(** [Path.exists]: errors of the lookup (a file on the way) count as
    absence. *)
Definition exists_at (p : list string) (r : option node) : bool :=
  bool_decide (is_Some (resolve p r)).

(** ** Exceptions and the monad of the scripts *)

Inductive exn :=
| FileNotFoundError
| NotADirectoryError
| IsADirectoryError
| FileExistsError
| UnicodeDecodeError
| SystemExit (code : Z).

Inductive outcome (A : Type) :=
| Done (a : A)
| Raised (e : exn).
Arguments Done {A} a.
Arguments Raised {A} e.

Definition M (S A : Type) : Type := S → outcome A * S.

Definition ret {S A} (a : A) : M S A := λ s, (Done a, s).
Definition bind {S A B} (m : M S A) (f : A → M S B) : M S B :=
  λ s, match m s with
       | (Done a, s') => f a s'
       | (Raised e, s') => (Raised e, s')
       end.
Definition raise {S A} (e : exn) : M S A := λ s, (Raised e, s).
Definition get {S} : M S S := λ s, (Done s, s).
Definition put {S} (s : S) : M S unit := λ _, (Done tt, s).

(** [try: m except <the exceptions h answers>: h e] *)
Definition try_except {S A} (m : M S A) (h : exn → option (M S A)) : M S A :=
  λ s, match m s with
       | (Done a, s') => (Done a, s')
       | (Raised e, s') =>
           match h e with
           | Some k => k s'
           | None => (Raised e, s')
           end
       end.

(** [for x in l: f x] *)
Fixpoint for_each {S A} (l : list A) (f : A → M S unit) : M S unit :=
  match l with
  | [] => ret tt
  | x :: l' => bind (f x) (λ _, for_each l' f)
  end.

Declare Scope script_scope.
Delimit Scope script_scope with script.
Notation "x <- m ;; k" := (bind m (λ x, k))
  (at level 100, m at next level, k at level 200, right associativity)
  : script_scope.
Notation "m ;; k" := (bind m (λ _, k))
  (at level 100, k at level 200, right associativity) : script_scope.
Open Scope script_scope.

(** The pure part of the monad, for operations on one root. *)
Definition obind {A B} (o : outcome A) (f : A → outcome B) : outcome B :=
  match o with
  | Done a => f a
  | Raised e => Raised e
  end.

(** Apply [f] to what is at path [p] below the root.  With [create] the
    missing directories on the way are made ([os.makedirs]); without it a
    missing one is an error.  A file on the way is an error in both. *)
Fixpoint alter_at (create : bool) (f : option node → outcome (option node))
    (p : list string) (r : option node) : outcome (option node) :=
  match p with
  | [] => f r
  | k :: p' =>
      match r with
      | None =>
          if create
          then obind (alter_at create f p' None)
                 (λ c, Done (Some (Dir (put_entry k c []))))
          else Raised FileNotFoundError
      | Some (File _) => Raised NotADirectoryError
      | Some (Dir es) =>
          obind (alter_at create f p' (entry k es))
            (λ c, Done (Some (Dir (put_entry k c es))))
      end
  end.

(** [shutil.rmtree(path)] *)
Definition rmtree : list string → option node → outcome (option node) :=
  alter_at false (λ r,
    match r with
    | None => Raised FileNotFoundError
    | Some (File _) => Raised NotADirectoryError
    | Some (Dir _) => Done None
    end).

(** [shutil.ignore_patterns(...)] with patterns that have no wildcard: the
    names equal to one of them. *)
Definition ignore_patterns (pats : list string) (name : string) : bool :=
  bool_decide (name ∈ pats).

(** What [shutil.copytree(src, dst, ignore=ignore)] writes at [dst] for the
    source tree [n]: at every level the ignored names are left out. *)
Fixpoint copy_of (ignore : string → bool) (n : node) : node :=
  match n with
  | File d => File d
  | Dir es =>
      Dir ((fix go (l : list (string * node)) : list (string * node) :=
              match l with
              | [] => []
              | (k, c) :: l' =>
                  if ignore k then go l' else (k, copy_of ignore c) :: go l'
              end) es)
  end.

(** [shutil.copytree]: the source must be a directory, the destination must
    not exist; its parents are created. *)
Definition copytree (ignore : string → bool) (src : option node)
    (dst : list string) (r : option node) : outcome (option node) :=
  match src with
  | None => Raised FileNotFoundError
  | Some (File _) => Raised NotADirectoryError
  | Some (Dir es) =>
      alter_at true (λ old,
        match old with
        | Some _ => Raised FileExistsError
        | None => Done (Some (copy_of ignore (Dir es)))
        end) dst r
  end.

(** [str(Path(a) / b)] *)
Definition joinpath (a b : string) : string :=
  if decide (a = "/") then "/" +:+ b else a +:+ "/" +:+ b.

(** ** What the two [update_skill.py] share

    [run_command], [sync_directory] and [log] are the same text in both
    scripts, up to the tag of the log lines and the name of the cache. *)

Module Sync.

(** What a run does to the outside, in order.  [Print] is a line on
    standard output; the other events record the library calls. *)
Inductive event :=
| Print (line : string)
| Subprocess (cmd : string)
| Mkdir_cache
| Rmtree_cache
| Rmtree (dest : string)
| Copytree (src dest : string)
| Sync_directory (src_rel dest_rel : string).

Global Instance event_eq_dec : EqDecision event.
Proof. solve_decision. Defined.

(** The two roots a script touches, [REPO_CACHE_PATH] and [SKILL_ROOT],
    and the events so far. *)
Record world := World {
  cache : option node;
  skill : option node;
  trace : list event
}.

Definition set_cache (c : option node) (w : world) : world :=
  World c (skill w) (trace w).
Definition set_skill (k : option node) (w : world) : world :=
  World (cache w) k (trace w).

Definition emit (e : event) : M world unit :=
  λ w, (Done tt, World (cache w) (skill w) (trace w ++ [e])).

(** Lift an operation on one root. *)
Definition on_cache (f : option node → outcome (option node)) : M world unit :=
  λ w, match f (cache w) with
       | Done c => (Done tt, set_cache c w)
       | Raised e => (Raised e, w)
       end.
Definition on_skill (f : option node → outcome (option node)) : M world unit :=
  λ w, match f (skill w) with
       | Done k => (Done tt, set_skill k w)
       | Raised e => (Raised e, w)
       end.

(** [REPO_CACHE_PATH.mkdir(parents=True, exist_ok=True)] *)
Definition mkdir_cache : M world unit :=
  emit Mkdir_cache ;;
  on_cache (λ c,
    match c with
    | None => Done (Some (Dir []))
    | Some (Dir es) => Done (Some (Dir es))
    | Some (File _) => Raised FileExistsError
    end).

(** [shutil.rmtree(REPO_CACHE_PATH)] *)
Definition rmtree_cache : M world unit :=
  emit Rmtree_cache ;; on_cache (rmtree []).

Section common.

(** The shell: for a command run in a directory with the entries [es],
    whether its exit status is zero, and the entries it leaves there.  A
    command that fails may have changed its directory too. *)
Variable sh : string → list (string * node) → bool * list (string * node).

(** [str(Path.home())] and [str(SKILL_ROOT)]; they only occur in log
    lines. *)
Variables USER_HOME SKILL_ROOT : string.

(** The tag of the log lines and the name of the cache directory. *)
Variables tag repo : string.

Definition CACHE_ROOT : string :=
  joinpath (joinpath (joinpath (joinpath USER_HOME ".gemini") "jetski") "cache") "repos".
Definition REPO_CACHE_PATH : string := joinpath CACHE_ROOT repo.

Definition log (msg : string) : M world unit :=
  emit (Print ("[" +:+ tag +:+ "] " +:+ msg)).

(** [run_command(cmd, cwd=REPO_CACHE_PATH)]: only [CalledProcessError]
    is caught; a working directory that is missing or is a file makes
    [subprocess] raise. *)
Definition run_command (cmd : string) : M world bool :=
  w <- get ;;
  match cache w with
  | None => raise FileNotFoundError
  | Some (File _) => raise NotADirectoryError
  | Some (Dir es) =>
      emit (Subprocess cmd) ;;
      on_cache (λ _, Done (Some (Dir (sh cmd es).2))) ;;
      if (sh cmd es).1 then ret true
      else log ("Command failed: " +:+ cmd) ;; ret false
  end.

Definition sync_directory (src_rel dest_rel : string)
    (exclude_node_modules : bool) : M world unit :=
  emit (Sync_directory src_rel dest_rel) ;;
  let src := Str.components src_rel in
  let dest := Str.components dest_rel in
  w <- get ;;
  if negb (exists_at src (cache w)) then
    log ("Warning: Source " +:+ joinpath REPO_CACHE_PATH src_rel
         +:+ " does not exist in repo. Skipping.")
  else
    log ("Syncing " +:+ src_rel +:+ " -> " +:+ dest_rel +:+ "...") ;;
    (if exists_at dest (skill w)
     then emit (Rmtree dest_rel) ;; on_skill (rmtree dest)
     else ret tt) ;;
    let ignore :=
      if exclude_node_modules
      then ignore_patterns ["node_modules"; ".git"; "__pycache__"; ".DS_Store"]
      else λ _, false in
    emit (Copytree src_rel dest_rel) ;;
    on_skill (copytree ignore (resolve src (cache w)) dest).

End common.

End Sync.

Import Sync.

(** ** [skills/adk_developer/scripts/update_skill.py] *)

Module ADK.
Section script.

Variable sh : string → list (string * node) → bool * list (string * node).
Variables USER_HOME SKILL_ROOT : string.

Definition REPO_CACHE_PATH : string := Sync.REPO_CACHE_PATH USER_HOME "adk".
Definition OFFICIAL_REPO_URL : string := "https://github.com/google/adk-python.git".

Definition DIRECTORIES_TO_SYNC : list string := ["contributing/samples"].

Definition log : string → M world unit := Sync.log "ADK Global Update".
Definition run_command : string → M world bool :=
  Sync.run_command sh "ADK Global Update".
Definition sync_directory : string → string → bool → M world unit :=
  Sync.sync_directory USER_HOME "ADK Global Update" "adk".

Definition clone_command : string := "git clone " +:+ OFFICIAL_REPO_URL +:+ " .".

Definition ensure_repo_updated : M world bool :=
  w <- get ;;
  if negb (exists_at [] (cache w)) then
    log ("Repo cache not found. Cloning from " +:+ OFFICIAL_REPO_URL
         +:+ " to " +:+ REPO_CACHE_PATH +:+ "...") ;;
    mkdir_cache ;;
    ok <- run_command clone_command ;;
    if ok then log "Cloning successful." ;; ret true
    else
      log "Cloning failed. Please check your internet connection or git configuration." ;;
      ret false
  else
    log ("Repo cache found at " +:+ REPO_CACHE_PATH +:+ ". Pulling latest changes...") ;;
    if negb (exists_at [".git"] (cache w)) then
      log "Cache directory exists but is not a git repo. Re-cloning..." ;;
      rmtree_cache ;;
      mkdir_cache ;;
      run_command clone_command
    else
      ok <- run_command "git pull" ;;
      if ok then log "Git pull successful." ;; ret true
      else
        log "Git pull failed. Attempting to proceed with existing cache." ;;
        ret true.

Definition main : M world unit :=
  log "Starting Global ADK Skill Self-Update..." ;;
  log ("Skill Root: " +:+ SKILL_ROOT) ;;
  ok <- ensure_repo_updated ;;
  (if negb ok then
     log "Critical Error: Could not update reference repository. Aborting sync." ;;
     raise (SystemExit 1)
   else ret tt) ;;
  for_each DIRECTORIES_TO_SYNC (λ d,
    let target := if Str.contains "samples" d then "examples" else d in
    sync_directory d target true) ;;
  w <- get ;;
  (if exists_at ["docs"] (cache w) then sync_directory "docs" "docs" true
   else ret tt) ;;
  log "Global Update complete. Skill is synchronized.".

End script.
End ADK.

(** ** [skills/a2ui_developer/scripts/update_skill.py] *)

Module A2UI.
Section script.

Variable sh : string → list (string * node) → bool * list (string * node).
Variables USER_HOME SKILL_ROOT : string.

Definition REPO_CACHE_PATH : string := Sync.REPO_CACHE_PATH USER_HOME "a2ui".
Definition OFFICIAL_REPO_URL : string := "https://github.com/google/A2UI.git".

Definition DIRECTORIES_TO_SYNC : list string :=
  ["specification"; "docs"; "renderers"; "tools"].

Definition SAMPLES_MAPPING : list (string * string) :=
  [("samples/agent/adk/rizzcharts", "examples/agent/rizzcharts");
   ("samples/agent/adk/contact_lookup", "examples/agent/contact_lookup");
   ("samples/client/lit/shell", "examples/client/generic_shell")].

Definition log : string → M world unit := Sync.log "A2UI Global Update".
Definition run_command : string → M world bool :=
  Sync.run_command sh "A2UI Global Update".
Definition sync_directory : string → string → bool → M world unit :=
  Sync.sync_directory USER_HOME "A2UI Global Update" "a2ui".

Definition clone_command : string := "git clone " +:+ OFFICIAL_REPO_URL +:+ " .".

Definition ensure_repo_updated : M world bool :=
  w <- get ;;
  if negb (exists_at [] (cache w)) then
    log ("Repo cache not found. Cloning from " +:+ OFFICIAL_REPO_URL
         +:+ " to " +:+ REPO_CACHE_PATH +:+ "...") ;;
    mkdir_cache ;;
    ok <- run_command clone_command ;;
    if ok then log "Cloning successful." ;; ret true
    else
      log "Cloning failed. Please check your internet connection or git configuration." ;;
      ret false
  else
    log ("Repo cache found at " +:+ REPO_CACHE_PATH +:+ ". Pulling latest changes...") ;;
    ok <- run_command "git pull" ;;
    if ok then log "Git pull successful." ;; ret true
    else
      log "Git pull failed. Attempting to proceed with existing cache." ;;
      ret true.

Definition main : M world unit :=
  log "Starting Global A2UI Skill Self-Update..." ;;
  log ("Skill Root: " +:+ SKILL_ROOT) ;;
  ok <- ensure_repo_updated ;;
  (if negb ok then
     log "Critical Error: Could not update reference repository. Aborting sync." ;;
     raise (SystemExit 1)
   else ret tt) ;;
  for_each DIRECTORIES_TO_SYNC (λ d, sync_directory d d true) ;;
  for_each SAMPLES_MAPPING (λ m, sync_directory m.1 m.2 true) ;;
  log "Global Update complete. Skill is synchronized.".

End script.
End A2UI.

(** ** [skills/agent_engine_terraform_deployer/scripts/prepare_agent.py] *)

Module Prepare.

(** The agent directory (what [agent_dir] names) and the lines printed. *)
Record world := World {
  target : option node;
  stdout : list string
}.

Definition print (line : string) : M world unit :=
  λ w, (Done tt, World (target w) (stdout w ++ [line])).

Definition on_target (f : option node → outcome (option node)) : M world unit :=
  λ w, match f (target w) with
       | Done t => (Done tt, World t (stdout w))
       | Raised e => (Raised e, w)
       end.

(** [os.listdir(agent_dir)] *)
Definition listdir : M world (list string) :=
  w <- get ;;
  match target w with
  | None => raise FileNotFoundError
  | Some (File _) => raise NotADirectoryError
  | Some (Dir es) => ret (es.*1)
  end.

(** [os.path.exists(os.path.join(agent_dir, name))] *)
Definition path_exists (name : string) : M world bool :=
  w <- get ;; ret (exists_at [name] (target w)).

(** [open(path, "r")] and reading all of it, in text mode. *)
Definition read_text (name : string) : M world string :=
  w <- get ;;
  match resolve [name] (target w) with
  | Some (File d) =>
      if Str.utf8 d then ret (Str.universal_newlines d)
      else raise UnicodeDecodeError
  | Some (Dir _) => raise IsADirectoryError
  | None => raise FileNotFoundError
  end.

(** [open(path, "a")] and the writes of its block: the file is created
    when missing, and the text goes after what it holds. *)
Definition append_text (name text : string) : M world unit :=
  on_target (alter_at false (λ old,
    match old with
    | None => Done (Some (File text))
    | Some (File d) => Done (Some (File (d +:+ text)))
    | Some (Dir _) => Raised IsADirectoryError
    end) [name]).

(** [sorted(s)] for a set of strings. *)
Definition sorted (s : gset string) : list string :=
  merge_sort String.le (elements s).

Definition baseline_ignores : gset string :=
  list_to_set
    ["__pycache__"; "*.pyc"; ".git"; ".venv"; "deploy"; ".ds_store";
     ".terraform"; ".terraform.lock.hcl"; "venv"; "env"; ".idea"; ".vscode";
     "*.zip"; "*.pkl"; "schema.json"].

Definition mandatory_dep : string := "google-cloud-aiplatform[agent_engines,adk]".

Definition telemetry_vars : list (string * string) :=
  [("GOOGLE_CLOUD_AGENT_ENGINE_ENABLE_TELEMETRY", "true");
   ("OTEL_INSTRUMENTATION_GENAI_CAPTURE_MESSAGE_CONTENT", "true")].

(** The non-comment entries of an ignore file:
    [{line.strip() for line in f if line.strip() and not line.startswith("#")}] *)
Definition ignore_entries (text : string) : gset string :=
  list_to_set
    (Str.strip <$>
       filter (λ line, Str.strip line ≠ "" ∧ Str.startswith "#" line = false)
         (Str.lines text)).

(** One turn of the loop that reads [.env]. *)
Definition env_line (existing_vars : gmap string string) (line : string) :
    gmap string string :=
  if Str.has_char "=" line && negb (Str.startswith "#" (Str.strip line)) then
    let '(key, val) := Str.split1 "=" line in
    <[Str.strip key := Str.strip val]> existing_vars
  else existing_vars.

Definition env_vars (text : string) : gmap string string :=
  foldl env_line ∅ (Str.lines text).

(** The lines of the model's answer that are kept. *)
Definition clean_lines (response_text : string) : list string :=
  let text := Str.strip response_text in
  let lines :=
    filter (λ line, line ≠ "") (Str.strip <$> Str.split Str.LF text) in
  filter (λ line, Str.startswith "```" line = false) lines.

Section script.

(** The outside of a run:
    - what [gcloud config get-value project] prints, [None] when
      [check_output] raises;
    - whether [import vertexai] succeeds;
    - the answer of the hosted model for a listing and a project, or the
      message of the exception raised on the way. *)
Variable gcloud : option string.
Variable vertexai_installed : bool.
Variable generate_content : list string → string → string + string.

Definition get_project_id : option string := Str.strip <$> gcloud.

Definition get_llm_ignores (files : list string) (project_id : string) :
    M world (gset string) :=
  print ("Connecting to Vertex AI (Project: " +:+ project_id +:+ ")...") ;;
  match generate_content files project_id with
  | inr response_text =>
      let cl := clean_lines response_text in
      print ("[AI] Recommended " +:+ pretty (length cl) +:+ " exclusions.") ;;
      ret (list_to_set cl)
  | inl e =>
      print ("[WARN] Failed to use LLM for ignore analysis: " +:+ e) ;;
      ret ∅
  end.

(** Lines 77-91: the suggestions of the model, when a project is
    configured and the client library is there. *)
Definition llm_step (files : list string) : M world (gset string) :=
  match get_project_id with
  | Some project_id =>
      if Str.is_empty project_id then
        print "[INFO] No active GCP project found. Using standard rules." ;;
        ret ∅
      else if vertexai_installed then get_llm_ignores files project_id
      else
        print "[INFO] 'vertexai' library not found. Using standard rules. (Pip install google-cloud-aiplatform for AI features)" ;;
        ret ∅
  | None =>
      print "[INFO] No active GCP project found. Using standard rules." ;;
      ret ∅
  end.

(** Lines 93-108: the [.ae_ignore] step. *)
Definition ignore_step (final_ignores : gset string) : M world unit :=
  present <- path_exists ".ae_ignore" ;;
  current_ignores <-
    (if present then text <- read_text ".ae_ignore" ;; ret (ignore_entries text)
     else ret ∅) ;;
  let missing_ignores := final_ignores ∖ current_ignores in
  if decide (missing_ignores ≠ ∅) then
    print ("Adding " +:+ pretty (size missing_ignores) +:+ " patterns to .ae_ignore...") ;;
    append_text ".ae_ignore"
      ((if decide (current_ignores ≠ ∅) then Str.nl else "")
       +:+ "# Added by Agent Engine Deployer Skill (Hybrid Analysis)" +:+ Str.nl
       +:+ Str.concat ((λ item, item +:+ Str.nl) <$> sorted missing_ignores))
  else print ".ae_ignore is already up to date.".

(** Lines 110-126: the [requirements.txt] step. *)
Definition requirements_step : M world unit :=
  present <- path_exists "requirements.txt" ;;
  has_dep <-
    (if present then
       content <- read_text "requirements.txt" ;;
       ret (Str.contains "google-cloud-aiplatform" content
            && Str.contains "agent_engines" content)
     else ret false) ;;
  if negb has_dep then
    print ("Adding mandatory dependency '" +:+ mandatory_dep +:+ "' to requirements.txt...") ;;
    append_text "requirements.txt"
      (Str.nl +:+ "# Mandatory for Agent Engine" +:+ Str.nl +:+ mandatory_dep +:+ Str.nl)
  else print "requirements.txt already correctly configured.".

(** Lines 128-155: the [.env] step. *)
Definition env_step : M world unit :=
  present <- path_exists ".env" ;;
  existing_vars <-
    (if present then text <- read_text ".env" ;; ret (env_vars text)
     else ret ∅) ;;
  let new_vars :=
    filter (λ kv, existing_vars !! kv.1 = None) telemetry_vars in
  if decide (new_vars ≠ []) then
    print ("Adding " +:+ pretty (length new_vars) +:+ " telemetry variables to .env...") ;;
    append_text ".env"
      (Str.nl +:+ "# Added by Agent Engine Deployer Skill" +:+ Str.nl
       +:+ Str.concat ((λ kv, kv.1 +:+ "=" +:+ kv.2 +:+ Str.nl) <$> new_vars))
  else print ".env is already correctly configured.".

Definition prepare_agent (agent_dir : string) : M world unit :=
  print ("Preparing agent in: " +:+ agent_dir) ;;
  listing <-
    try_except (files <- listdir ;; ret (Some files))
      (λ e, match e with
            | FileNotFoundError =>
                Some (print ("Error: Directory '" +:+ agent_dir +:+ "' not found.") ;;
                      ret None)
            | _ => None
            end) ;;
  match listing with
  | None => ret tt
  | Some files =>
      llm_ignores <- llm_step files ;;
      let final_ignores := baseline_ignores ∪ llm_ignores in
      ignore_step final_ignores ;;
      requirements_step ;;
      env_step ;;
      print (Str.nl +:+ "[SUCCESS] Agent is ready for deployment configuration!")
  end.

End script.
End Prepare.

(** * Vocabulary of the statements

    Definitions that the properties below are stated with; none of them is
    part of the scripts. *)

(** ** Traces *)

(** A computation only adds events to the trace. *)
Definition monotone {A} (m : M world A) : Prop :=
  ∀ w, trace w `prefix_of` trace (m w).2.

(** The events that start a clone. *)
Definition is_clone (e : event) : bool :=
  match e with
  | Subprocess cmd => Str.startswith "git clone" cmd
  | _ => false
  end.

(** How many clones a trace starts. *)
Definition clones (t : list event) : nat := length (List.filter is_clone t).

(** What [main] does after the cache manager has returned [True]: lines
    110-119 of the ADK script, lines 112-120 of the A2UI script. *)
Definition adk_syncs (USER_HOME : string) : M world unit :=
  for_each ADK.DIRECTORIES_TO_SYNC (λ d,
    let target := if Str.contains "samples" d then "examples" else d in
    ADK.sync_directory USER_HOME d target true) ;;
  w <- get ;;
  (if exists_at ["docs"] (cache w) then ADK.sync_directory USER_HOME "docs" "docs" true
   else ret tt) ;;
  ADK.log "Global Update complete. Skill is synchronized.".

Definition a2ui_syncs (USER_HOME : string) : M world unit :=
  for_each A2UI.DIRECTORIES_TO_SYNC (λ d, A2UI.sync_directory USER_HOME d d true) ;;
  for_each A2UI.SAMPLES_MAPPING (λ m, A2UI.sync_directory USER_HOME m.1 m.2 true) ;;
  A2UI.log "Global Update complete. Skill is synchronized.".

(** Runs of the cache manager one after the other, each with the shell of
    its day. *)
Definition a2ui_runs USER_HOME
    (shs : list (string → list (string * node) → bool * list (string * node))) :
    M world unit :=
  for_each shs (λ sh, A2UI.ensure_repo_updated sh USER_HOME ;; ret tt).

(** The events of a run that only pulls. *)
Definition is_pull_or_print (e : event) : Prop :=
  e = Subprocess "git pull" ∨ ∃ line, e = Print line.

(** The names [sync_directory] leaves out. *)
Definition sync_ignore : string → bool :=
  ignore_patterns ["node_modules"; ".git"; "__pycache__"; ".DS_Store"].

(** A machine where every command fails and leaves its directory as it
    is. *)
Definition sh_offline : string → list (string * node) → bool * list (string * node) :=
  λ _ es, (false, es).

(** A machine where every command fails after git has written its
    administrative directory. *)
Definition sh_interrupted : string → list (string * node) → bool * list (string * node) :=
  λ _ es, (false, set_entry ".git" (Dir [("FETCH_HEAD", File "")]) es).

(** A relative path that stays below the root it is resolved in: it does
    not start with [/] and has no component [..]. *)
Definition within (path : string) : bool :=
  negb (Str.startswith "/" path)
  && forallb (λ c, negb (String.eqb c "..")) (Str.components path).

(** ** Texts *)

Section text_vocabulary.
Import Str.
Implicit Types (s : string).

(** The text is not empty and ends with LF. *)
Fixpoint ends_lf s : bool :=
  match s with
  | "" => false
  | String c s' => if is_empty s' then Ascii.eqb c LF else ends_lf s'
  end.

(** What ending the text with one more LF does to its lines. *)
Fixpoint terminate (ls : list string) : list string :=
  match ls with
  | [] => [nl]
  | [l] => if ends_lf l then [l; nl] else [l +:+ nl]
  | l :: ls' => l :: terminate ls'
  end.

(** The character before the end of [s] is a CR ([p] stands for the one
    before [s]). *)
Fixpoint ends_cr (p : bool) s : bool :=
  match s with
  | "" => p
  | String c s' => ends_cr (Ascii.eqb c CR) s'
  end.

(** No CR and no LF in the text. *)
Fixpoint plain (s : string) : bool :=
  match s with
  | "" => true
  | String c s' => negb (Ascii.eqb c CR) && negb (Ascii.eqb c LF) && plain s'
  end.

End text_vocabulary.

(** ** The preparation utility *)

Section prepare_vocabulary.
Import Str Prepare.
Implicit Types (w : Prepare.world) (name d : string).

(** The state after printing [line]. *)
Definition says (line : string) w : Prepare.world :=
  Prepare.World (target w) (stdout w ++ [line]).

(** The texts the three steps append. *)
Definition ignore_text (current_ignores missing_ignores : gset string) : string :=
  (if decide (current_ignores ≠ ∅) then nl else "")
  +:+ "# Added by Agent Engine Deployer Skill (Hybrid Analysis)" +:+ nl
  +:+ Str.concat ((λ item, item +:+ nl) <$> sorted missing_ignores).

Definition requirements_text : string :=
  nl +:+ "# Mandatory for Agent Engine" +:+ nl +:+ mandatory_dep +:+ nl.

Definition env_text (new_vars : list (string * string)) : string :=
  nl +:+ "# Added by Agent Engine Deployer Skill" +:+ nl
  +:+ Str.concat ((λ kv, kv.1 +:+ "=" +:+ kv.2 +:+ nl) <$> new_vars).

(** Every key read from the old text of [.env] is read with the same value
    from the new one. *)
Definition keeps_env (d d' : string) : Prop :=
  ∀ k v, env_vars (universal_newlines d) !! k = Some v →
         env_vars (universal_newlines d') !! k = Some v.

(** From [w] to [w'] every file of the agent directory has only grown at
    its end, and [.env] has kept its keys. *)
Definition only_appends w w' : Prop :=
  ∀ name d, resolve [name] (target w) = Some (File d) →
    ∃ suffix, resolve [name] (target w') = Some (File (d +:+ suffix))
              ∧ (name = ".env" → keeps_env d (d +:+ suffix)).

(** The set the model step returns. *)
Definition suggestions (gcloud : option string) (vertexai_installed : bool)
    (generate_content : list string → string → string + string)
    (files : list string) : gset string :=
  match get_project_id gcloud with
  | Some project_id =>
      if is_empty project_id || negb vertexai_installed then ∅
      else match generate_content files project_id with
           | inr response_text => list_to_set (clean_lines response_text)
           | inl _ => ∅
           end
  | None => ∅
  end.

(** After the listing, [prepare_agent] is the model step and the three
    merge steps in a row. *)
Definition merge_steps (final_ignores : gset string) : M Prepare.world unit :=
  ignore_step final_ignores ;;
  requirements_step ;;
  env_step ;;
  Prepare.print (nl +:+ "[SUCCESS] Agent is ready for deployment configuration!").




(** The text made of one line per item. *)
Definition written (items : list string) : string :=
  Str.concat ((λ item, item +:+ nl) <$> items).

(** An entry that reads back from the ignore file as it was written. *)
Definition clean_entry (item : string) : Prop :=
  item ≠ "" ∧ strip item = item ∧ startswith "#" item = false ∧ plain item = true.

(** The lines of a requirements file that are neither blank nor comments. *)
Definition dependency_lines (text : string) : list string :=
  filter (λ line, line ≠ "" ∧ Str.startswith "#" line = false)
    (Str.strip <$> Str.lines text).

End prepare_vocabulary.

(** The three files [prepare_agent] makes in an empty directory. *)
Definition ae_ignore_created : string :=
  Str.concat ((λ line, line +:+ Str.nl) <$>
    ["# Added by Agent Engine Deployer Skill (Hybrid Analysis)";
     "*.pkl"; "*.pyc"; "*.zip"; ".ds_store"; ".git"; ".idea"; ".terraform";
     ".terraform.lock.hcl"; ".venv"; ".vscode"; "__pycache__"; "deploy"; "env";
     "schema.json"; "venv"]).

Definition requirements_created : string :=
  Str.nl +:+ "# Mandatory for Agent Engine" +:+ Str.nl
  +:+ "google-cloud-aiplatform[agent_engines,adk]" +:+ Str.nl.

Definition env_created : string :=
  Str.nl +:+ "# Added by Agent Engine Deployer Skill" +:+ Str.nl
  +:+ "GOOGLE_CLOUD_AGENT_ENGINE_ENABLE_TELEMETRY=true" +:+ Str.nl
  +:+ "OTEL_INSTRUMENTATION_GENAI_CAPTURE_MESSAGE_CONTENT=true" +:+ Str.nl.

(** A project is configured, the client library is there, and the model
    answers with a heading line before the one name it suggests. *)
Definition gcloud_configured : option string := Some ("my-project" +:+ Str.nl).

Definition model_with_heading : list string → string → string + string :=
  λ _ _, inr ("# Suggested exclusions" +:+ Str.nl +:+ "data" +:+ Str.nl).

(** The ignore file after the first run with that answer. *)
Definition ae_ignore_with_heading : string :=
  Str.concat ((λ line, line +:+ Str.nl) <$>
    ["# Added by Agent Engine Deployer Skill (Hybrid Analysis)";
     "# Suggested exclusions";
     "*.pkl"; "*.pyc"; "*.zip"; ".ds_store"; ".git"; ".idea"; ".terraform";
     ".terraform.lock.hcl"; ".venv"; ".vscode"; "__pycache__"; "data"; "deploy";
     "env"; "schema.json"; "venv"]).

(** ** Further vocabulary *)

(** Two relative paths part ways: they differ at some name before either
    of them ends. *)
Fixpoint diverge (p q : list string) : bool :=
  match p, q with
  | k :: p', k' :: q' => if decide (k = k') then diverge p' q' else true
  | _, _ => false
  end.

(** What [sync_directory] leaves out, by its flag. *)
Definition sync_ignore_if (exclude_node_modules : bool) : string → bool :=
  if exclude_node_modules then sync_ignore else λ _, false.

(** The mappings [main] goes through, in order: source and destination. *)
Definition a2ui_mappings : list (string * string) :=
  ((λ d, (d, d)) <$> A2UI.DIRECTORIES_TO_SYNC) ++ A2UI.SAMPLES_MAPPING.



(** The cache is as it was, and so is the skill folder away from [dest]. *)
Definition away_from (dest : list string) (w w' : world) : Prop :=
  cache w' = cache w
  ∧ ∀ q, diverge dest q = true → resolve q (skill w') = resolve q (skill w).



(** What the three merge steps read from the agent directory: the entries
    of the ignore file, whether the requirements file passes the test of
    the dependency step, and the variables of [.env]; nothing when the file
    is not there. *)
Definition ignore_of (w : Prepare.world) : gset string :=
  match resolve [".ae_ignore"] (Prepare.target w) with
  | Some (File d) => Prepare.ignore_entries (Str.universal_newlines d)
  | _ => ∅
  end.

Definition has_dep (w : Prepare.world) : bool :=
  match resolve ["requirements.txt"] (Prepare.target w) with
  | Some (File d) =>
      Str.contains "google-cloud-aiplatform" (Str.universal_newlines d)
      && Str.contains "agent_engines" (Str.universal_newlines d)
  | _ => false
  end.

Definition env_of (w : Prepare.world) : gmap string string :=
  match resolve [".env"] (Prepare.target w) with
  | Some (File d) => Prepare.env_vars (Str.universal_newlines d)
  | _ => ∅
  end.

(** * Properties *)

(** ** The string operations on examples *)

Example strip_ex : Str.strip ("  a b " +:+ Str.nl) = "a b".
Proof. reflexivity. Qed.

Example lines_ex :
  Str.lines ("a" +:+ Str.nl +:+ Str.nl +:+ "b") = ["a" +:+ Str.nl; Str.nl; "b"].
Proof. reflexivity. Qed.

Example universal_newlines_ex :
  Str.universal_newlines (String "a" (String Str.CR (String Str.LF (String "b" (String Str.CR "")))))
  = "a" +:+ Str.nl +:+ "b" +:+ Str.nl.
Proof. reflexivity. Qed.

Example components_ex :
  Str.components "samples/agent/adk/rizzcharts" = ["samples"; "agent"; "adk"; "rizzcharts"].
Proof. reflexivity. Qed.

(** ** File trees *)

Section tree_facts.
Implicit Types (k : string) (c r : option node) (es : list (string * node)).
Implicit Types (p q : list string) (n : node).

Lemma entry_remove_entry_eq k es : entry k (remove_entry k es) = None.
Proof.
  unfold remove_entry. induction es as [|[k' n'] es IH]; [done|].
  rewrite filter_cons. simpl. destruct (decide (k' ≠ k)) as [Hne|Heq]; [|done].
  simpl. by rewrite decide_False.
Qed.

Lemma entry_remove_entry_ne k k' es :
  k ≠ k' → entry k' (remove_entry k es) = entry k' es.
Proof.
  intros Hne. unfold remove_entry. induction es as [|[k0 n0] es IH]; [done|].
  rewrite filter_cons. simpl. destruct (decide (k0 ≠ k)) as [H0|H0]; simpl.
  - by rewrite IH.
  - apply dec_stable in H0 as ->. by rewrite decide_False.
Qed.

Lemma entry_set_entry_eq k n es : entry k (set_entry k n es) = Some n.
Proof.
  induction es as [|[k' n'] es IH]; simpl.
  - by rewrite decide_True.
  - destruct (decide (k' = k)); simpl; [by rewrite decide_True|].
    by rewrite decide_False.
Qed.

Lemma entry_set_entry_ne k k' n es :
  k ≠ k' → entry k' (set_entry k n es) = entry k' es.
Proof.
  intros Hne. induction es as [|[k0 n0] es IH]; simpl.
  - by rewrite decide_False.
  - destruct (decide (k0 = k)) as [->|]; simpl.
    + by rewrite !decide_False.
    + by rewrite IH.
Qed.

Lemma entry_put_entry_eq k c es : entry k (put_entry k c es) = c.
Proof.
  destruct c; simpl; auto using entry_set_entry_eq, entry_remove_entry_eq.
Qed.

Lemma entry_put_entry_ne k k' c es :
  k ≠ k' → entry k' (put_entry k c es) = entry k' es.
Proof.
  destruct c; simpl; auto using entry_set_entry_ne, entry_remove_entry_ne.
Qed.

Lemma resolve_None p : resolve p None = None.
Proof. by destruct p. Qed.

Lemma resolve_app p q r : resolve (p ++ q) r = resolve q (resolve p r).
Proof.
  revert r. induction p as [|k p IH]; intros r; [done|].
  simpl. destruct r as [[d|es]|]; auto using resolve_None.
Qed.

(** After a successful [alter_at], the path holds what [f] made of what
    was there. *)
Lemma alter_at_resolve create f p r r' :
  alter_at create f p r = Done r' →
  f (resolve p r) = Done (resolve p r').
Proof.
  revert r r'. induction p as [|k p IH]; intros r r' H; [done|].
  simpl in *. destruct r as [[d|es]|]; try done.
  - destruct (alter_at create f p (entry k es)) as [c|] eqn:Hc; [|done].
    simpl in H. injection H as <-. rewrite entry_put_entry_eq. by apply IH.
  - destruct create; [|done].
    destruct (alter_at true f p None) as [c|] eqn:Hc; [|done].
    simpl in H. injection H as <-. rewrite entry_put_entry_eq.
    apply IH in Hc. by rewrite resolve_None in Hc.
Qed.

Section copy.
Variable ignore : string → bool.

Lemma copy_of_Dir es :
  copy_of ignore (Dir es) =
  Dir (omap (λ kc, if ignore kc.1 then None
                   else Some (kc.1, copy_of ignore kc.2)) es).
Proof.
  simpl. f_equal. induction es as [|[k c] es IH]; [done|].
  simpl. destruct (ignore k); simpl; by rewrite IH.
Qed.

Lemma entry_copy_of k es :
  resolve [k] (Some (copy_of ignore (Dir es))) =
  if ignore k then None else copy_of ignore <$> entry k es.
Proof.
  simpl. induction es as [|[k' c'] es IH]; simpl.
  - by destruct (ignore k).
  - destruct (decide (k' = k)) as [->|Hne].
    + destruct (ignore k) eqn:Hk; simpl.
      * by rewrite IH.
      * by rewrite decide_True.
    + destruct (ignore k'); simpl; [done|]. by rewrite decide_False.
Qed.

(** A path below the copy leads to the copy of what the same path
    leads to below the source, unless one of its names is ignored. *)
Lemma resolve_copy_of q n :
  resolve q (Some (copy_of ignore n)) =
  if existsb ignore q then None else copy_of ignore <$> resolve q (Some n).
Proof.
  revert n. induction q as [|k q IH]; intros n; [done|].
  destruct n as [d|es].
  { simpl. by destruct (ignore k || existsb ignore q). }
  change (k :: q) with ([k] ++ q). rewrite resolve_app, entry_copy_of.
  rewrite resolve_app. simpl existsb. simpl (resolve [k] _).
  destruct (ignore k); simpl; [apply resolve_None|].
  destruct (entry k es) as [c|]; simpl.
  - apply IH.
  - rewrite resolve_None. by destruct (existsb ignore q).
Qed.

End copy.
End tree_facts.

(** ** The monad *)

Lemma run_bind {S A B} (m : M S A) (f : A → M S B) (s : S) :
  (x <- m ;; f x) s =
  match m s with
  | (Done a, s') => f a s'
  | (Raised e, s') => (Raised e, s')
  end.
Proof. reflexivity. Qed.

(** ** Traces of the update scripts only grow *)

Lemma monotone_ret {A} (a : A) : monotone (ret a).
Proof. by intros w. Qed.

Lemma monotone_raise {A} e : monotone (@raise world A e).
Proof. by intros w. Qed.

Lemma monotone_get : monotone (@get world).
Proof. by intros w. Qed.

Lemma monotone_emit e : monotone (emit e).
Proof. intros w. simpl. by apply prefix_app_r. Qed.

Lemma monotone_on_cache f : monotone (on_cache f).
Proof. intros w. unfold on_cache. by destruct (f (cache w)). Qed.

Lemma monotone_on_skill f : monotone (on_skill f).
Proof. intros w. unfold on_skill. by destruct (f (skill w)). Qed.

Lemma monotone_bind {A B} (m : M world A) (f : A → M world B) :
  monotone m → (∀ a, monotone (f a)) → monotone (x <- m ;; f x).
Proof.
  intros Hm Hf w. rewrite run_bind. specialize (Hm w).
  destruct (m w) as [[a|e] w']; simpl in *; [|done].
  etrans; [done|]. apply Hf.
Qed.

Lemma monotone_for_each {A} (l : list A) (f : A → M world unit) :
  (∀ a, monotone (f a)) → monotone (for_each l f).
Proof.
  intros Hf. induction l as [|a l IH]; simpl; [apply monotone_ret|].
  apply monotone_bind; auto.
Qed.

Lemma monotone_if {A} (b : bool) (m1 m2 : M world A) :
  monotone m1 → monotone m2 → monotone (if b then m1 else m2).
Proof. by destruct b. Qed.

Create HintDb mono discriminated.
#[local] Hint Resolve monotone_ret monotone_raise monotone_get monotone_emit
  monotone_on_cache monotone_on_skill monotone_if monotone_for_each : mono.
#[local] Hint Extern 2 (monotone (bind _ _)) =>
  apply monotone_bind; [|intros ?] : mono.
#[local] Hint Extern 5 (monotone (match ?x with _ => _ end)) => destruct x : mono.

Lemma monotone_log tag msg : monotone (Sync.log tag msg).
Proof. apply monotone_emit. Qed.
#[local] Hint Resolve monotone_log : mono.

Lemma monotone_run_command sh tag cmd : monotone (Sync.run_command sh tag cmd).
Proof. unfold Sync.run_command. auto 10 with mono. Qed.

Lemma monotone_sync_directory home tag repo s d b :
  monotone (Sync.sync_directory home tag repo s d b).
Proof. unfold Sync.sync_directory. auto 10 with mono. Qed.
#[local] Hint Resolve monotone_run_command monotone_sync_directory : mono.

(** An event stays in the trace. *)
Lemma monotone_elem_of {A} (m : M world A) e w :
  monotone m → e ∈ trace w → e ∈ trace (m w).2.
Proof. intros Hm He. destruct (Hm w) as [l ->]. set_solver. Qed.

(** ** The cache manager *)

Ltac run_script :=
  repeat (progress (unfold bind, get, ret, raise, emit, on_cache, on_skill,
                      set_cache, set_skill, mkdir_cache, rmtree_cache,
                      ADK.log, A2UI.log, Sync.log,
                      ADK.run_command, A2UI.run_command, Sync.run_command;
                    simpl)).

Ltac not_in_trace :=
  let H := fresh in
  intros H; repeat (apply elem_of_cons in H as [H|H]; [discriminate H|]);
  by apply elem_of_nil in H.

Section cache_manager.
Variable sh : string → list (string * node) → bool * list (string * node).
Variables USER_HOME SKILL_ROOT : string.
Implicit Types (es : list (string * node)) (sk : option node) (tr : list event).

(** Cache absent: the directory is made, the clone runs once, its status is
    returned, and the directory holds what the clone left, also when it
    failed. *)
Lemma adk_ensure_absent sk tr :
  ADK.ensure_repo_updated sh USER_HOME (World None sk tr) =
    (Done (sh ADK.clone_command []).1,
     World (Some (Dir (sh ADK.clone_command []).2)) sk
       (tr ++ [Print ("[ADK Global Update] Repo cache not found. Cloning from "
                      +:+ ADK.OFFICIAL_REPO_URL +:+ " to "
                      +:+ ADK.REPO_CACHE_PATH USER_HOME +:+ "...");
               Mkdir_cache;
               Subprocess ADK.clone_command;
               Print (if (sh ADK.clone_command []).1 then
                        "[ADK Global Update] Cloning successful."
                      else "[ADK Global Update] Command failed: " +:+ ADK.clone_command)]
           ++ (if (sh ADK.clone_command []).1 then []
               else [Print "[ADK Global Update] Cloning failed. Please check your internet connection or git configuration."]))).
Proof.
  unfold ADK.ensure_repo_updated. run_script.
  destruct (sh ADK.clone_command []) as [[] es'] eqn:Hc; run_script;
    by rewrite <- !(assoc_L (++)).
Qed.

Lemma a2ui_ensure_absent sk tr :
  A2UI.ensure_repo_updated sh USER_HOME (World None sk tr) =
    (Done (sh A2UI.clone_command []).1,
     World (Some (Dir (sh A2UI.clone_command []).2)) sk
       (tr ++ [Print ("[A2UI Global Update] Repo cache not found. Cloning from "
                      +:+ A2UI.OFFICIAL_REPO_URL +:+ " to "
                      +:+ A2UI.REPO_CACHE_PATH USER_HOME +:+ "...");
               Mkdir_cache;
               Subprocess A2UI.clone_command;
               Print (if (sh A2UI.clone_command []).1 then
                        "[A2UI Global Update] Cloning successful."
                      else "[A2UI Global Update] Command failed: " +:+ A2UI.clone_command)]
           ++ (if (sh A2UI.clone_command []).1 then []
               else [Print "[A2UI Global Update] Cloning failed. Please check your internet connection or git configuration."]))).
Proof.
  unfold A2UI.ensure_repo_updated. run_script.
  destruct (sh A2UI.clone_command []) as [[] es'] eqn:Hc; run_script;
    by rewrite <- !(assoc_L (++)).
Qed.

(** Cache present, A2UI: whatever the directory holds, the only command is
    the pull, the directory holds what the pull left, and the result is
    success. *)
Lemma a2ui_ensure_present es sk tr :
  A2UI.ensure_repo_updated sh USER_HOME (World (Some (Dir es)) sk tr) =
    (Done true,
     World (Some (Dir (sh "git pull" es).2)) sk
       (tr ++ [Print ("[A2UI Global Update] Repo cache found at "
                      +:+ A2UI.REPO_CACHE_PATH USER_HOME
                      +:+ ". Pulling latest changes...");
               Subprocess "git pull"]
           ++ (if (sh "git pull" es).1 then
                 [Print "[A2UI Global Update] Git pull successful."]
               else
                 [Print "[A2UI Global Update] Command failed: git pull";
                  Print "[A2UI Global Update] Git pull failed. Attempting to proceed with existing cache."]))).
Proof.
  unfold A2UI.ensure_repo_updated. run_script.
  destruct (sh "git pull" es) as [[] es'] eqn:Hc; run_script;
    by rewrite <- !(assoc_L (++)).
Qed.

(** Cache present with [.git], ADK: the same. *)
Lemma adk_ensure_present es sk tr :
  exists_at [".git"] (Some (Dir es)) = true →
  ADK.ensure_repo_updated sh USER_HOME (World (Some (Dir es)) sk tr) =
    (Done true,
     World (Some (Dir (sh "git pull" es).2)) sk
       (tr ++ [Print ("[ADK Global Update] Repo cache found at "
                      +:+ ADK.REPO_CACHE_PATH USER_HOME
                      +:+ ". Pulling latest changes...");
               Subprocess "git pull"]
           ++ (if (sh "git pull" es).1 then
                 [Print "[ADK Global Update] Git pull successful."]
               else
                 [Print "[ADK Global Update] Command failed: git pull";
                  Print "[ADK Global Update] Git pull failed. Attempting to proceed with existing cache."]))).
Proof.
  intros Hgit. unfold ADK.ensure_repo_updated. run_script. rewrite Hgit. run_script.
  destruct (sh "git pull" es) as [[] es'] eqn:Hc; run_script;
    by rewrite <- !(assoc_L (++)).
Qed.

(** Cache present without [.git], ADK: deleted, made again and cloned. *)
Lemma adk_ensure_not_a_repo es sk tr :
  exists_at [".git"] (Some (Dir es)) = false →
  ADK.ensure_repo_updated sh USER_HOME (World (Some (Dir es)) sk tr) =
    (Done (sh ADK.clone_command []).1,
     World (Some (Dir (sh ADK.clone_command []).2)) sk
       (tr ++ [Print ("[ADK Global Update] Repo cache found at "
                      +:+ ADK.REPO_CACHE_PATH USER_HOME
                      +:+ ". Pulling latest changes...");
               Print "[ADK Global Update] Cache directory exists but is not a git repo. Re-cloning...";
               Rmtree_cache;
               Mkdir_cache;
               Subprocess ADK.clone_command]
           ++ (if (sh ADK.clone_command []).1 then []
               else [Print ("[ADK Global Update] Command failed: " +:+ ADK.clone_command)]))).
Proof.
  intros Hgit. unfold ADK.ensure_repo_updated. run_script. rewrite Hgit. run_script.
  destruct (sh ADK.clone_command []) as [[] es'] eqn:Hc; run_script;
    by rewrite <- !(assoc_L (++)).
Qed.

(** A call of [sync_directory] shows in the trace, whatever it does next. *)
Lemma sync_directory_traced home tag repo s d b w :
  Sync_directory s d ∈ trace (Sync.sync_directory home tag repo s d b w).2.
Proof.
  unfold Sync.sync_directory. rewrite run_bind. simpl.
  apply monotone_elem_of; [auto 10 with mono|]. simpl. set_solver.
Qed.

Lemma bind_traced {A B} (m : M world A) (f : A → M world B) e w :
  (∀ a, monotone (f a)) → e ∈ trace (m w).2 → e ∈ trace ((x <- m ;; f x) w).2.
Proof.
  intros Hf He. rewrite run_bind. destruct (m w) as [[a|x] w']; [|done].
  by apply monotone_elem_of.
Qed.

Lemma monotone_adk_sync_directory s d b :
  monotone (ADK.sync_directory USER_HOME s d b).
Proof. unfold ADK.sync_directory. apply monotone_sync_directory. Qed.

Lemma monotone_a2ui_sync_directory s d b :
  monotone (A2UI.sync_directory USER_HOME s d b).
Proof. unfold A2UI.sync_directory. apply monotone_sync_directory. Qed.

Lemma monotone_adk_log msg : monotone (ADK.log msg).
Proof. unfold ADK.log. apply monotone_log. Qed.

Lemma monotone_a2ui_log msg : monotone (A2UI.log msg).
Proof. unfold A2UI.log. apply monotone_log. Qed.

Hint Resolve monotone_adk_sync_directory monotone_a2ui_sync_directory
  monotone_adk_log monotone_a2ui_log : mono.

Lemma for_each_head_traced {A} (a : A) l (f : A → M world unit) e w :
  (∀ a, monotone (f a)) → e ∈ trace (f a w).2 →
  e ∈ trace (for_each (a :: l) f w).2.
Proof.
  intros Hf He. change (for_each (a :: l) f) with (f a ;; for_each l f).
  apply bind_traced; auto with mono.
Qed.

Lemma samples_target : Str.contains "samples" "contributing/samples" = true.
Proof. reflexivity. Qed.

Lemma adk_syncs_traced w :
  Sync_directory "contributing/samples" "examples" ∈ trace (adk_syncs USER_HOME w).2.
Proof.
  unfold adk_syncs. apply bind_traced; [auto 10 with mono|].
  unfold ADK.DIRECTORIES_TO_SYNC, A2UI.DIRECTORIES_TO_SYNC.
  apply (for_each_head_traced (A:=string)); [auto with mono|].
  cbv beta zeta. unfold ADK.sync_directory, A2UI.sync_directory.
  rewrite ?samples_target. apply sync_directory_traced.
Qed.

Lemma a2ui_syncs_traced w :
  Sync_directory "specification" "specification" ∈ trace (a2ui_syncs USER_HOME w).2.
Proof.
  unfold a2ui_syncs. apply bind_traced; [auto 10 with mono|].
  unfold ADK.DIRECTORIES_TO_SYNC, A2UI.DIRECTORIES_TO_SYNC.
  apply (for_each_head_traced (A:=string)); [auto with mono|].
  cbv beta zeta. unfold ADK.sync_directory, A2UI.sync_directory.
  rewrite ?samples_target. apply sync_directory_traced.
Qed.

(** [main] is: two log lines, the cache manager, and then either the sync
    steps or the exit with status 1. *)
Lemma adk_main_run w :
  ADK.main sh USER_HOME SKILL_ROOT w =
  match ADK.ensure_repo_updated sh USER_HOME
          (World (cache w) (skill w)
             ((trace w ++ [Print "[ADK Global Update] Starting Global ADK Skill Self-Update..."])
                ++ [Print ("[ADK Global Update] Skill Root: " +:+ SKILL_ROOT)])) with
  | (Done true, w1) => adk_syncs USER_HOME w1
  | (Done false, w1) =>
      (Raised (SystemExit 1),
       World (cache w1) (skill w1)
         (trace w1 ++ [Print "[ADK Global Update] Critical Error: Could not update reference repository. Aborting sync."]))
  | (Raised e, w1) => (Raised e, w1)
  end.
Proof.
  set (w0 := World _ _ _).
  transitivity
    (match ADK.ensure_repo_updated sh USER_HOME w0 with
     | (Done ok, w1) =>
         ((if negb ok then
             ADK.log "Critical Error: Could not update reference repository. Aborting sync." ;;
             raise (SystemExit 1)
           else ret tt) ;; adk_syncs USER_HOME) w1
     | (Raised e, w1) => (Raised e, w1)
     end); [reflexivity|].
  by destruct (ADK.ensure_repo_updated sh USER_HOME w0) as [[[]|e] w1].
Qed.

Lemma a2ui_main_run w :
  A2UI.main sh USER_HOME SKILL_ROOT w =
  match A2UI.ensure_repo_updated sh USER_HOME
          (World (cache w) (skill w)
             ((trace w ++ [Print "[A2UI Global Update] Starting Global A2UI Skill Self-Update..."])
                ++ [Print ("[A2UI Global Update] Skill Root: " +:+ SKILL_ROOT)])) with
  | (Done true, w1) => a2ui_syncs USER_HOME w1
  | (Done false, w1) =>
      (Raised (SystemExit 1),
       World (cache w1) (skill w1)
         (trace w1 ++ [Print "[A2UI Global Update] Critical Error: Could not update reference repository. Aborting sync."]))
  | (Raised e, w1) => (Raised e, w1)
  end.
Proof.
  set (w0 := World _ _ _).
  transitivity
    (match A2UI.ensure_repo_updated sh USER_HOME w0 with
     | (Done ok, w1) =>
         ((if negb ok then
             A2UI.log "Critical Error: Could not update reference repository. Aborting sync." ;;
             raise (SystemExit 1)
           else ret tt) ;; a2ui_syncs USER_HOME) w1
     | (Raised e, w1) => (Raised e, w1)
     end); [reflexivity|].
  by destruct (A2UI.ensure_repo_updated sh USER_HOME w0) as [[[]|e] w1].
Qed.

End cache_manager.

(** C8.  With a valid working copy in the cache and a failing pull, the
    cache manager of either script logs the warning and returns [True]:
    nothing is deleted and nothing is cloned, the cache holds what the
    failed pull left of it, the skill folder is untouched, and [main] goes
    on to the sync steps.  The returned value is the one of a clean
    update. *)
Theorem pull_failure_proceeds_with_stale_cache sh USER_HOME SKILL_ROOT es sk :
  exists_at [".git"] (Some (Dir es)) = true →
  (sh "git pull" es).1 = false →
  let w := World (Some (Dir es)) sk [] in
  let adk := ADK.ensure_repo_updated sh USER_HOME w in
  let a2ui := A2UI.ensure_repo_updated sh USER_HOME w in
  (adk.1 = Done true ∧ cache adk.2 = Some (Dir (sh "git pull" es).2) ∧ skill adk.2 = sk
   ∧ (Rmtree_cache ∉ trace adk.2) ∧ clones (trace adk.2) = 0
   ∧ Print "[ADK Global Update] Git pull failed. Attempting to proceed with existing cache."
       ∈ trace adk.2
   ∧ Sync_directory "contributing/samples" "examples"
       ∈ trace (ADK.main sh USER_HOME SKILL_ROOT w).2)
  ∧ (a2ui.1 = Done true ∧ cache a2ui.2 = Some (Dir (sh "git pull" es).2) ∧ skill a2ui.2 = sk
     ∧ (Rmtree_cache ∉ trace a2ui.2) ∧ clones (trace a2ui.2) = 0
     ∧ Print "[A2UI Global Update] Git pull failed. Attempting to proceed with existing cache."
         ∈ trace a2ui.2
     ∧ Sync_directory "specification" "specification"
         ∈ trace (A2UI.main sh USER_HOME SKILL_ROOT w).2)
  ∧ (∀ sh', (ADK.ensure_repo_updated sh' USER_HOME w).1 = adk.1
            ∧ (A2UI.ensure_repo_updated sh' USER_HOME w).1 = a2ui.1).
Proof.
  intros Hgit Hpull w adk a2ui. subst w adk a2ui.
  rewrite adk_main_run, a2ui_main_run.
  rewrite !(adk_ensure_present _ _ _ _ _ Hgit), !(a2ui_ensure_present _ _ es sk), Hpull.
  cbn [fst snd cache skill trace].
  split_and!; try done.
  all: try not_in_trace.
  all: try (simpl; set_solver).
  - apply (adk_syncs_traced sh).
  - apply (a2ui_syncs_traced sh).
  - intros sh'.
    by rewrite (adk_ensure_present _ _ _ _ _ Hgit), (a2ui_ensure_present _ _ es sk).
Qed.

Lemma pull_failure_proceeds_with_stale_cache_witness :
  let w := World (Some (Dir [(".git", Dir []); ("docs", Dir [])])) (Some (Dir [])) [] in
  cache (A2UI.ensure_repo_updated sh_interrupted "/home/dev" w).2
  = Some (Dir [(".git", Dir [("FETCH_HEAD", File "")]); ("docs", Dir [])])
  ∧ Sync_directory "specification" "specification"
      ∈ trace (A2UI.main sh_interrupted "/home/dev" "/home/dev/skills/a2ui_developer" w).2.
Proof.
  intros w.
  destruct (pull_failure_proceeds_with_stale_cache sh_interrupted "/home/dev"
              "/home/dev/skills/a2ui_developer" [(".git", Dir []); ("docs", Dir [])]
              (Some (Dir [])) eq_refl eq_refl) as (_ & (_ & Hcache & _ & _ & _ & _ & Hsync) & _).
  split; [exact Hcache|exact Hsync].
Defined.

(** C6.  With no cache directory at the start of a run, the cache manager
    of either script starts exactly one clone; when that clone fails,
    [main] ends with [sys.exit(1)] and [sync_directory] is never called. *)
Theorem clone_once_and_abort_on_failure sh USER_HOME SKILL_ROOT sk :
  let w := World None sk [] in
  clones (trace (ADK.ensure_repo_updated sh USER_HOME w).2) = 1
  ∧ clones (trace (A2UI.ensure_repo_updated sh USER_HOME w).2) = 1
  ∧ ((sh ADK.clone_command []).1 = false →
     (ADK.main sh USER_HOME SKILL_ROOT w).1 = Raised (SystemExit 1)
     ∧ clones (trace (ADK.main sh USER_HOME SKILL_ROOT w).2) = 1
     ∧ ∀ s d, Sync_directory s d ∉ trace (ADK.main sh USER_HOME SKILL_ROOT w).2)
  ∧ ((sh A2UI.clone_command []).1 = false →
     (A2UI.main sh USER_HOME SKILL_ROOT w).1 = Raised (SystemExit 1)
     ∧ clones (trace (A2UI.main sh USER_HOME SKILL_ROOT w).2) = 1
     ∧ ∀ s d, Sync_directory s d ∉ trace (A2UI.main sh USER_HOME SKILL_ROOT w).2).
Proof.
  intros w. subst w. rewrite adk_main_run, a2ui_main_run.
  rewrite !adk_ensure_absent, !a2ui_ensure_absent.
  cbn [fst snd cache skill trace].
  split_and!.
  - by destruct (sh ADK.clone_command []).1.
  - by destruct (sh A2UI.clone_command []).1.
  - intros ->. cbn [fst snd trace app].
    split_and!; [done..|]. intros s d. not_in_trace.
  - intros ->. cbn [fst snd trace app].
    split_and!; [done..|]. intros s d. not_in_trace.
Qed.

Lemma clone_once_and_abort_on_failure_witness :
  (ADK.main sh_offline "/home/dev" "/home/dev/skills/adk_developer"
     (World None (Some (Dir [])) [])).1 = Raised (SystemExit 1)
  ∧ (A2UI.main sh_offline "/home/dev" "/home/dev/skills/a2ui_developer"
       (World None (Some (Dir [])) [])).1 = Raised (SystemExit 1).
Proof.
  split.
  - apply (clone_once_and_abort_on_failure sh_offline "/home/dev"
             "/home/dev/skills/adk_developer" (Some (Dir []))). reflexivity.
  - apply (clone_once_and_abort_on_failure sh_offline "/home/dev"
             "/home/dev/skills/a2ui_developer" (Some (Dir []))). reflexivity.
Defined.

(** The ADK script does what the cache entry asks for: a cache directory
    without [.git] is deleted, made again and cloned into. *)
Lemma adk_reclones_cache_that_is_not_a_repo sh USER_HOME es sk :
  exists_at [".git"] (Some (Dir es)) = false →
  let r := ADK.ensure_repo_updated sh USER_HOME (World (Some (Dir es)) sk []) in
  r.1 = Done (sh ADK.clone_command []).1
  ∧ clones (trace r.2) = 1
  ∧ ∃ l1 l2, trace r.2 = l1 ++ [Rmtree_cache; Mkdir_cache; Subprocess ADK.clone_command] ++ l2.
Proof.
  intros Hgit r. subst r. rewrite (adk_ensure_not_a_repo _ _ _ _ _ Hgit).
  cbn [fst snd trace]. split_and!; [done| |].
  - by destruct (sh ADK.clone_command []).1.
  - by eexists [_; _], _.
Qed.

(** With [.git] in the cache directory the ADK script pulls, and neither
    deletes nor clones. *)
Lemma adk_pulls_cache_that_is_a_repo sh USER_HOME es sk :
  exists_at [".git"] (Some (Dir es)) = true →
  let r := ADK.ensure_repo_updated sh USER_HOME (World (Some (Dir es)) sk []) in
  r.1 = Done true
  ∧ clones (trace r.2) = 0
  ∧ (Rmtree_cache ∉ trace r.2)
  ∧ Subprocess "git pull" ∈ trace r.2.
Proof.
  intros Hgit r. subst r. rewrite (adk_ensure_present _ _ _ _ _ Hgit).
  cbn [fst snd trace]. split_and!; [done| | |].
  - by destruct (sh "git pull" es).1.
  - destruct (sh "git pull" es).1; not_in_trace.
  - simpl. set_solver.
Qed.

(** C1.  The A2UI script has no such check: a cache directory without
    [.git] is neither deleted nor cloned into; the script runs [git pull]
    in it and reports success, and the directory holds what the pull left:
    after a pull that fails without touching anything, it is as it was. *)
Theorem a2ui_keeps_cache_that_is_not_a_repo sh USER_HOME es sk :
  exists_at [".git"] (Some (Dir es)) = false →
  let r := A2UI.ensure_repo_updated sh USER_HOME (World (Some (Dir es)) sk []) in
  r.1 = Done true
  ∧ (Rmtree_cache ∉ trace r.2)
  ∧ clones (trace r.2) = 0
  ∧ cache r.2 = Some (Dir (sh "git pull" es).2)
  ∧ (sh "git pull" es = (false, es) → cache r.2 = Some (Dir es)).
Proof.
  intros _ r. subst r. rewrite a2ui_ensure_present. cbn [fst snd trace cache].
  split_and!; [done| | |done|by intros ->].
  - destruct (sh "git pull" es).1; not_in_trace.
  - by destruct (sh "git pull" es).1.
Qed.

Lemma a2ui_keeps_cache_that_is_not_a_repo_witness :
  let r := A2UI.ensure_repo_updated sh_offline "/home/dev"
             (World (Some (Dir [("README.md", File "notes")])) (Some (Dir [])) []) in
  r.1 = Done true ∧ (Rmtree_cache ∉ trace r.2) ∧ clones (trace r.2) = 0
  ∧ cache r.2 = Some (Dir [("README.md", File "notes")]).
Proof.
  destruct (a2ui_keeps_cache_that_is_not_a_repo sh_offline "/home/dev"
              [("README.md", File "notes")] (Some (Dir [])) eq_refl)
    as (H1 & H2 & H3 & _ & H4).
  split_and!; [exact H1|exact H2|exact H3|exact (H4 eq_refl)].
Defined.

Lemma a2ui_runs_only_pull USER_HOME shs es sk tr :
  ∃ es' l, a2ui_runs USER_HOME shs (World (Some (Dir es)) sk tr)
           = (Done tt, World (Some (Dir es')) sk (tr ++ l))
           ∧ Forall is_pull_or_print l.
Proof.
  revert es tr. induction shs as [|sh shs IH]; intros es tr.
  - exists es, []. by rewrite app_nil_r.
  - unfold a2ui_runs. cbn [for_each]. rewrite run_bind, run_bind.
    rewrite a2ui_ensure_present. cbn [ret].
    match goal with
    | |- context [World (Some (Dir ?c)) sk (tr ++ ?E)] =>
        destruct (IH c (tr ++ E)) as (es' & l & Hrun & Hl); exists es', (E ++ l)
    end.
    unfold a2ui_runs in Hrun. rewrite Hrun. split.
    + do 2 f_equal. symmetry. apply (assoc_L (++)).
    + apply Forall_app. split; [|done]. unfold is_pull_or_print.
      destruct (sh "git pull" es).1; simpl;
        repeat (apply Forall_cons; split; [by eauto|]); by apply Forall_nil.
Qed.

(** C10 as stated fails for the ADK script: after a run whose clone failed
    and left nothing, the next run clones again. *)
Lemma adk_second_run_clones_again :
  let first := ADK.ensure_repo_updated sh_offline "/home/dev" (World None (Some (Dir [])) []) in
  let second := ADK.ensure_repo_updated sh_offline "/home/dev"
                  (World (cache first.2) (skill first.2) []) in
  first.1 = Done false
  ∧ cache first.2 = Some (Dir [])
  ∧ Subprocess ADK.clone_command ∈ trace second.2
  ∧ clones (trace second.2) = 1.
Proof. vm_compute. split_and!; try done. set_solver. Qed.

(** C10 (amended).  With no cache directory, the cache manager of either
    script makes the directory before it starts the clone, and when the
    clone fails it returns [False] and removes nothing: the cache path is a
    directory that holds what the failed clone left, which is nothing when
    the clone failed before it wrote.  After that, every run of the A2UI
    script takes the cache-present branch and only pulls.  The next run of
    the ADK script takes the cache-present branch too: when the failed
    clone left no [.git], it deletes, makes and clones again; when it left
    one, it pulls. *)
Theorem failed_clone_leaves_cache_directory sh USER_HOME sk :
  (sh ADK.clone_command []).1 = false →
  (sh A2UI.clone_command []).1 = false →
  let adk := ADK.ensure_repo_updated sh USER_HOME (World None sk []) in
  let a2ui := A2UI.ensure_repo_updated sh USER_HOME (World None sk []) in
  (adk.1 = Done false ∧ cache adk.2 = Some (Dir (sh ADK.clone_command []).2)
   ∧ (Rmtree_cache ∉ trace adk.2)
   ∧ ∃ l1 l2, trace adk.2 = l1 ++ [Mkdir_cache; Subprocess ADK.clone_command] ++ l2)
  ∧ (a2ui.1 = Done false ∧ cache a2ui.2 = Some (Dir (sh A2UI.clone_command []).2)
     ∧ (Rmtree_cache ∉ trace a2ui.2)
     ∧ ∃ l1 l2, trace a2ui.2 = l1 ++ [Mkdir_cache; Subprocess A2UI.clone_command] ++ l2)
  ∧ (∀ shs, ∃ es' l,
       a2ui_runs USER_HOME shs (World (cache a2ui.2) sk [])
         = (Done tt, World (Some (Dir es')) sk l)
       ∧ Forall is_pull_or_print l)
  ∧ (∀ sh',
       let next := ADK.ensure_repo_updated sh' USER_HOME (World (cache adk.2) sk []) in
       (exists_at [".git"] (cache adk.2) = false →
        next.1 = Done (sh' ADK.clone_command []).1
        ∧ clones (trace next.2) = 1
        ∧ ∃ l1 l2, trace next.2 =
            l1 ++ [Rmtree_cache; Mkdir_cache; Subprocess ADK.clone_command] ++ l2)
       ∧ (exists_at [".git"] (cache adk.2) = true →
          next.1 = Done true
          ∧ clones (trace next.2) = 0
          ∧ (Rmtree_cache ∉ trace next.2)
          ∧ Subprocess "git pull" ∈ trace next.2)).
Proof.
  intros Ha Hb adk a2ui. subst adk a2ui.
  rewrite adk_ensure_absent, a2ui_ensure_absent, Ha, Hb.
  cbn [fst snd cache trace app].
  split_and!; try done.
  - not_in_trace.
  - by eexists [_], [_; _].
  - not_in_trace.
  - by eexists [_], [_; _].
  - intros shs.
    destruct (a2ui_runs_only_pull USER_HOME shs (sh A2UI.clone_command []).2 sk [])
      as (es' & l & H & Hl).
    by exists es', l.
  - intros sh'. split; intros Hgit.
    + by apply adk_reclones_cache_that_is_not_a_repo.
    + by apply adk_pulls_cache_that_is_a_repo.
Qed.

Lemma failed_clone_leaves_cache_directory_witness :
  let first := ADK.ensure_repo_updated sh_interrupted "/home/dev"
                 (World None (Some (Dir [])) []) in
  let next := ADK.ensure_repo_updated sh_offline "/home/dev"
                (World (cache first.2) (Some (Dir [])) []) in
  cache first.2 = Some (Dir [(".git", Dir [("FETCH_HEAD", File "")])])
  ∧ clones (trace next.2) = 0.
Proof.
  intros first next.
  destruct (failed_clone_leaves_cache_directory sh_interrupted "/home/dev" (Some (Dir []))
              eq_refl eq_refl) as ((_ & Hcache & _) & _ & _ & Hnext).
  split; [exact Hcache|].
  destruct (Hnext sh_offline) as [_ Hpull].
  exact (proj1 (proj2 (Hpull eq_refl))).
Defined.

(** ** The directory synchronizer *)

Lemma exists_at_true p r : exists_at p r = true ↔ is_Some (resolve p r).
Proof. unfold exists_at. by rewrite bool_decide_eq_true. Qed.

Lemma exists_at_false p r : exists_at p r = false ↔ resolve p r = None.
Proof.
  unfold exists_at. rewrite bool_decide_eq_false. symmetry. apply eq_None_not_Some.
Qed.

Lemma rmtree_resolve p r r' : rmtree p r = Done r' → resolve p r' = None.
Proof.
  intros H. apply alter_at_resolve in H.
  destruct (resolve p r) as [[d|es]|]; by simplify_eq.
Qed.

Lemma copytree_resolve ignore src dst r r' :
  copytree ignore src dst r = Done r' →
  ∃ n, src = Some n ∧ resolve dst r' = Some (copy_of ignore n).
Proof.
  intros H. destruct src as [[d|es]|]; try done. exists (Dir es). split; [done|].
  apply alter_at_resolve in H. destruct (resolve dst r); by simplify_eq.
Qed.

(** C2.  When the source of a mapping exists and [sync_directory] (called
    as [main] calls it, with the default [exclude_node_modules]) returns,
    the cache is as before and the destination is the filtered copy of the
    source, whatever the destination held: a path below the destination
    leads nowhere if one of its names is [node_modules], [.git],
    [__pycache__] or [.DS_Store], and to the copy of what the same path
    leads to below the source otherwise. *)
Theorem sync_directory_replaces_destination home tag repo src_rel dest_rel w w' :
  is_Some (resolve (Str.components src_rel) (cache w)) →
  Sync.sync_directory home tag repo src_rel dest_rel true w = (Done tt, w') →
  cache w' = cache w
  ∧ ∀ q, resolve (Str.components dest_rel ++ q) (skill w') =
         if existsb sync_ignore q then None
         else copy_of sync_ignore <$> resolve (Str.components src_rel ++ q) (cache w).
Proof.
  intros [n Hn] H. unfold Sync.sync_directory in H.
  rewrite run_bind in H. cbn [emit] in H. rewrite run_bind in H. cbn [get cache] in H.
  assert (exists_at (Str.components src_rel) (cache w) = true) as Hsrc
    by (apply exists_at_true; eauto).
  rewrite Hsrc in H. cbn [negb] in H.
  rewrite run_bind in H. unfold Sync.log in H. cbn [emit cache skill trace] in H.
  rewrite run_bind in H.
  set (src := Str.components src_rel) in *. set (dest := Str.components dest_rel) in *.
  match type of H with context [(if _ then _ else _) ?w0] =>
    assert (∃ w1, (if exists_at dest (skill w)
                   then emit (Rmtree dest_rel) ;; on_skill (rmtree dest)
                   else ret tt) w0 = (Done tt, w1)
                  ∧ cache w1 = cache w ∧ resolve dest (skill w1) = None)
      as (w1 & Hw1 & Hcache & Hdest)
  end.
  { destruct (exists_at dest (skill w)) eqn:Hd.
    - rewrite run_bind in H |- *. cbn [emit] in H |- *. unfold on_skill in H |- *.
      cbn [skill] in H |- *.
      destruct (rmtree dest (skill w)) as [sk1|e] eqn:Hrm;
        cbv beta iota in H |- *; [|done].
      eexists. split; [done|]. split; [done|]. by apply rmtree_resolve in Hrm.
    - eexists. split; [done|]. split; [done|]. by apply exists_at_false. }
  rewrite Hw1 in H. rewrite run_bind in H. cbn [emit] in H. unfold on_skill in H.
  cbn [skill cache trace] in H. fold sync_ignore in H.
  destruct (copytree sync_ignore (resolve src (cache w)) dest (skill w1))
    as [sk2|e] eqn:Hcp; [|done].
  injection H as <-. cbn [set_skill cache skill]. split; [done|].
  apply copytree_resolve in Hcp as (n' & Hn' & Hres). rewrite Hn in Hn'.
  injection Hn' as <-. intros q.
  rewrite !resolve_app, Hres, Hn. apply resolve_copy_of.
Qed.

Lemma sync_directory_replaces_destination_witness :
  let w := World (Some (Dir [("docs", Dir [("guide.md", File "text");
                                            (".git", Dir [("HEAD", File "ref")]);
                                            ("site", Dir [("node_modules", Dir []);
                                                          ("index.md", File "home")])])]))
                 (Some (Dir [("docs", Dir [("stale.md", File "old")])])) [] in
  let w' := (Sync.sync_directory "/home/dev" "A2UI Global Update" "a2ui" "docs" "docs" true w).2 in
  resolve ["docs"; "site"; "index.md"] (skill w') = Some (File "home")
  ∧ resolve ["docs"; "stale.md"] (skill w') = None
  ∧ resolve ["docs"; ".git"; "HEAD"] (skill w') = None.
Proof.
  intros w w'.
  assert (is_Some (resolve (Str.components "docs") (cache w))) as Hsrc by (by eexists).
  destruct (sync_directory_replaces_destination "/home/dev" "A2UI Global Update" "a2ui"
              "docs" "docs" w w' Hsrc eq_refl) as [_ H].
  split_and!.
  - exact (H ["site"; "index.md"]).
  - exact (H ["stale.md"]).
  - exact (H [".git"; "HEAD"]).
Defined.

(** ** Strings *)

Section str_facts.
Import Str.
Implicit Types (s t x y : string) (c : ascii).

Lemma app_cons c s t : String c s +:+ t = String c (s +:+ t).
Proof. reflexivity. Qed.

Lemma app_nil_r s : s +:+ "" = s.
Proof. induction s as [|c s IH]; [done|]. by rewrite app_cons, IH. Qed.

Lemma app_assoc s t x : (s +:+ t) +:+ x = s +:+ (t +:+ x).
Proof. induction s as [|c s IH]; [done|]. by rewrite !app_cons, IH. Qed.

(** *** [strip] and a line terminator *)

Lemma rstrip_app_nl s : rstrip (s +:+ nl) = rstrip s.
Proof.
  induction s as [|c s IH]; [done|]. rewrite app_cons. simpl. by rewrite IH.
Qed.

Lemma lstrip_app_nl s :
  lstrip (s +:+ nl) = if is_empty (lstrip s) then "" else lstrip s +:+ nl.
Proof.
  induction s as [|c s IH]; [done|]. rewrite app_cons. simpl.
  destruct (isspace c); [done|]. by rewrite app_cons.
Qed.

Lemma strip_app_nl s : strip (s +:+ nl) = strip s.
Proof.
  unfold strip. rewrite lstrip_app_nl. destruct (lstrip s) eqn:H; [done|].
  simpl is_empty. cbv iota. apply rstrip_app_nl.
Qed.

Lemma has_char_app c s t : has_char c (s +:+ t) = has_char c s || has_char c t.
Proof.
  induction s as [|a s IH]; [done|]. rewrite app_cons. simpl.
  by rewrite IH, orb_assoc.
Qed.

Lemma split1_app c s t :
  has_char c s = true →
  split1 c (s +:+ t) = ((split1 c s).1, (split1 c s).2 +:+ t).
Proof.
  induction s as [|a s IH]; [done|]. rewrite app_cons. simpl.
  destruct (Ascii.eqb a c); [done|]. simpl. intros H. rewrite (IH H).
  by destruct (split1 c s).
Qed.

(** *** Lines *)

Lemma ends_lf_snoc s : ends_lf (s +:+ nl) = true.
Proof.
  induction s as [|c s IH]; [done|]. rewrite app_cons. simpl.
  by destruct (s +:+ nl) eqn:H.
Qed.

Lemma lines_nonempty c s : lines (String c s) ≠ [].
Proof. simpl. destruct (Ascii.eqb c LF); [done|]. by destruct (lines s). Qed.

Lemma lines_app x y : ends_lf x = true → lines (x +:+ y) = lines x ++ lines y.
Proof.
  induction x as [|c x IH]; [done|]. rewrite app_cons. simpl.
  destruct x as [|c' x'].
  - simpl. by intros ->.
  - simpl is_empty. cbv iota. intros H. rewrite (IH H).
    destruct (Ascii.eqb c LF); [done|].
    pose proof (lines_nonempty c' x'). by destruct (lines (String c' x')).
Qed.

Lemma lines_snoc_nl s : lines (s +:+ nl) = terminate (lines s).
Proof.
  induction s as [|c s IH]; [done|]. rewrite app_cons. simpl. rewrite IH.
  destruct (Ascii.eqb c LF) eqn:Hc.
  - by destruct (lines s).
  - destruct (lines s) as [|l [|l' ls]] eqn:Hl; simpl.
    + by rewrite Hc.
    + destruct l as [|a l]; simpl.
      * by rewrite Hc.
      * by destruct (if is_empty l then Ascii.eqb a LF else ends_lf l).
    + done.
Qed.

Lemma foldl_terminate {A} (f : A → string → A) (a : A) ls :
  (∀ a l, f a (l +:+ nl) = f a l) → (∀ a, f a nl = a) →
  foldl f a (terminate ls) = foldl f a ls.
Proof.
  intros Hline Hnl. revert a. induction ls as [|l ls IH]; intros a; simpl.
  - apply Hnl.
  - destruct ls as [|l' ls]; [|apply IH].
    destruct (ends_lf l); simpl; by rewrite ?Hline, ?Hnl.
Qed.

(** *** Universal newlines *)

Lemma decode_newlines_app_nl p s t :
  decode_newlines p (s +:+ String LF t) =
  decode_newlines p s +:+
  (if ends_cr p s then decode_newlines false t
   else String LF (decode_newlines false t)).
Proof.
  revert p. induction s as [|c s IH]; intros p.
  - simpl. by destruct p.
  - rewrite app_cons. simpl. destruct (Ascii.eqb c CR) eqn:Hcr.
    + by rewrite IH, app_cons.
    + destruct (Ascii.eqb c LF); [destruct p|]; by rewrite IH, ?app_cons.
Qed.

Lemma decode_newlines_ends_lf p s :
  ends_cr p s = true → s = "" ∨ ends_lf (decode_newlines p s) = true.
Proof.
  revert p. induction s as [|c s IH]; intros p H; [by left|]. right.
  simpl in *. assert (∀ a t, t = "" ∨ ends_lf t = true → a = LF ∨ t ≠ "" →
                       ends_lf (String a t) = true) as Hcons.
  { intros a t [->|Ht] [->|Hne]; simpl; try done.
    - by destruct t.
    - destruct t; [done|]. done. }
  destruct (Ascii.eqb c CR) eqn:Hcr.
  - destruct (IH _ H) as [->|Hs]; [done|]. apply Hcons; auto.
  - destruct (IH _ H) as [->|Hs]; [done|].
    destruct (Ascii.eqb c LF); [destruct p|]; try done;
      (apply Hcons; [by right|right; by destruct (decode_newlines false s)]).
Qed.

End str_facts.

(** ** The preparation utility *)

Ltac step_unfold :=
  repeat (progress (unfold bind, get, ret, raise, Prepare.path_exists,
                      Prepare.read_text, Prepare.print, exists_at;
                    cbv beta iota)).

Section prepare_facts.
Import Str Prepare.
Implicit Types (w : Prepare.world) (name text d : string).

Lemma append_text_run name text w :
  append_text name text w =
  match target w with
  | Some (Dir es) =>
      match entry name es with
      | None =>
          (Done tt, Prepare.World (Some (Dir (set_entry name (File text) es))) (stdout w))
      | Some (File d) =>
          (Done tt,
           Prepare.World (Some (Dir (set_entry name (File (d +:+ text)) es))) (stdout w))
      | Some (Dir _) => (Raised IsADirectoryError, w)
      end
  | Some (File _) => (Raised NotADirectoryError, w)
  | None => (Raised FileNotFoundError, w)
  end.
Proof.
  unfold append_text, on_target. simpl.
  destruct (target w) as [[d|es]|]; try done.
  by destruct (entry name es) as [[d|es']|].
Qed.

(** Appending to one entry leaves the others alone. *)
Lemma append_text_other name text name' w :
  name ≠ name' →
  resolve [name'] (target (append_text name text w).2) = resolve [name'] (target w).
Proof.
  intros Hne. rewrite append_text_run.
  destruct (target w) as [[d|es]|] eqn:Ht; simpl; rewrite ?Ht; try done.
  destruct (entry name es) as [[d|es']|]; simpl; rewrite ?Ht; try done;
    by rewrite entry_set_entry_ne.
Qed.

Lemma append_text_same name text d w :
  resolve [name] (target w) = Some (File d) →
  append_text name text w =
  (Done tt, (append_text name text w).2)
  ∧ resolve [name] (target (append_text name text w).2) = Some (File (d +:+ text)).
Proof.
  rewrite append_text_run. destruct (target w) as [[d'|es]|]; try done. simpl.
  intros ->. simpl. by rewrite entry_set_entry_eq.
Qed.

(** *** What reading [.env] yields after an append *)

Lemma env_line_app_nl m l : env_line m (l +:+ nl) = env_line m l.
Proof.
  unfold env_line. rewrite has_char_app, strip_app_nl. simpl (has_char _ nl).
  rewrite orb_false_r. destruct (has_char "=" l) eqn:Heq; [|done].
  rewrite (split1_app _ _ _ Heq). destruct (split1 "=" l) as [k v]. simpl.
  by rewrite strip_app_nl.
Qed.

Lemma env_vars_app_nl d rest :
  env_vars (universal_newlines (d +:+ String LF rest)) =
  foldl env_line (env_vars (universal_newlines d)) (lines (universal_newlines rest)).
Proof.
  unfold env_vars, universal_newlines. rewrite decode_newlines_app_nl.
  destruct (ends_cr false d) eqn:Hcr.
  - destruct (decode_newlines_ends_lf _ _ Hcr) as [->|Hlf]; [done|].
    by rewrite (lines_app _ _ Hlf), foldl_app.
  - change (String LF ?t) with (nl +:+ t). rewrite <- app_assoc.
    rewrite (lines_app _ _ (ends_lf_snoc _)), foldl_app, lines_snoc_nl.
    by rewrite (foldl_terminate _ _ _ env_line_app_nl).
Qed.

(** *** The three steps, written out *)

Lemma ignore_step_run final_ignores w :
  ignore_step final_ignores w =
  match resolve [".ae_ignore"] (target w) with
  | Some (Dir _) => (Raised IsADirectoryError, w)
  | o =>
      if (if o is Some (File d) then utf8 d else true) then
        let current_ignores :=
          match o with
          | Some (File d) => ignore_entries (universal_newlines d)
          | _ => ∅
          end in
        let missing_ignores := final_ignores ∖ current_ignores in
        if decide (missing_ignores ≠ ∅) then
          append_text ".ae_ignore" (ignore_text current_ignores missing_ignores)
            (says ("Adding " +:+ pretty (size missing_ignores) +:+ " patterns to .ae_ignore...") w)
        else (Done tt, says ".ae_ignore is already up to date." w)
      else (Raised UnicodeDecodeError, w)
  end.
Proof.
  unfold ignore_step. step_unfold.
  destruct (resolve [".ae_ignore"] (target w)) as [[d|es]|] eqn:Hres;
    cbv beta iota zeta; try done.
  - rewrite bool_decide_eq_true_2 by eauto. cbv beta iota. rewrite Hres.
    cbv beta iota. destruct (utf8 d); [|done]. cbv beta iota.
    by destruct (decide (_ ≠ ∅)).
  - rewrite bool_decide_eq_true_2 by eauto. cbv beta iota. by rewrite Hres.
  - rewrite bool_decide_eq_false_2 by (by intros [? ?]). cbv beta iota.
    by destruct (decide (_ ≠ ∅)).
Qed.

Lemma requirements_step_run w :
  requirements_step w =
  match resolve ["requirements.txt"] (target w) with
  | Some (Dir _) => (Raised IsADirectoryError, w)
  | o =>
      if (if o is Some (File d) then utf8 d else true) then
        let has_dep :=
          match o with
          | Some (File d) =>
              Str.contains "google-cloud-aiplatform" (universal_newlines d)
              && Str.contains "agent_engines" (universal_newlines d)
          | _ => false
          end in
        if has_dep then (Done tt, says "requirements.txt already correctly configured." w)
        else
          append_text "requirements.txt" requirements_text
            (says ("Adding mandatory dependency '" +:+ mandatory_dep +:+ "' to requirements.txt...") w)
      else (Raised UnicodeDecodeError, w)
  end.
Proof.
  unfold requirements_step. step_unfold.
  destruct (resolve ["requirements.txt"] (target w)) as [[d|es]|] eqn:Hres;
    cbv beta iota zeta; try done.
  - rewrite bool_decide_eq_true_2 by eauto. cbv beta iota. rewrite Hres.
    cbv beta iota. destruct (utf8 d); [|done]. cbv beta iota.
    by destruct (_ && _).
  - rewrite bool_decide_eq_true_2 by eauto. cbv beta iota. by rewrite Hres.
Qed.

Lemma env_step_run w :
  env_step w =
  match resolve [".env"] (target w) with
  | Some (Dir _) => (Raised IsADirectoryError, w)
  | o =>
      if (if o is Some (File d) then utf8 d else true) then
        let existing_vars :=
          match o with
          | Some (File d) => env_vars (universal_newlines d)
          | _ => ∅
          end in
        let new_vars := filter (λ kv, existing_vars !! kv.1 = None) telemetry_vars in
        if decide (new_vars ≠ []) then
          append_text ".env" (env_text new_vars)
            (says ("Adding " +:+ pretty (length new_vars) +:+ " telemetry variables to .env...") w)
        else (Done tt, says ".env is already correctly configured." w)
      else (Raised UnicodeDecodeError, w)
  end.
Proof.
  unfold env_step. step_unfold.
  destruct (resolve [".env"] (target w)) as [[d|es]|] eqn:Hres;
    cbv beta iota zeta; try done.
  - rewrite bool_decide_eq_true_2 by eauto. cbv beta iota. rewrite Hres.
    cbv beta iota. destruct (utf8 d); [|done]. cbv beta iota.
    by destruct (decide (_ ≠ [])).
  - rewrite bool_decide_eq_true_2 by eauto. cbv beta iota. by rewrite Hres.
Qed.

End prepare_facts.

Section prepare_appends.
Import Str Prepare.
Implicit Types (w : Prepare.world) (name text d : string).

(** *** Only appends *)

Lemma only_appends_refl w w' : target w' = target w → only_appends w w'.
Proof.
  intros Ht name d H. exists "". rewrite app_nil_r, Ht.
  split; [done|]. by intros _ k v.
Qed.

Lemma only_appends_trans w1 w2 w3 :
  only_appends w1 w2 → only_appends w2 w3 → only_appends w1 w3.
Proof.
  intros H12 H23 name d H1.
  destruct (H12 _ _ H1) as (s1 & H2 & Hk1).
  destruct (H23 _ _ H2) as (s2 & H3 & Hk2).
  exists (s1 +:+ s2). rewrite <- app_assoc. split; [done|].
  intros Hname k v Hk. apply (Hk2 Hname), (Hk1 Hname), Hk.
Qed.

Lemma only_appends_says line w w' : only_appends (says line w) w' → only_appends w w'.
Proof. done. Qed.

(** Appending to a file other than [.env]. *)
Lemma only_appends_append_text name text w :
  name ≠ ".env" → only_appends w (append_text name text w).2.
Proof.
  intros Hne name' d H. destruct (decide (name = name')) as [<-|Hne'].
  - exists text. by rewrite (proj2 (append_text_same _ text _ _ H)).
  - exists "". rewrite app_nil_r, append_text_other by done.
    split; [done|]. by intros _ k v.
Qed.

Lemma env_line_comment m :
  env_line m ("# Added by Agent Engine Deployer Skill" +:+ nl) = m.
Proof. reflexivity. Qed.

Lemma env_line_telemetry1 m :
  env_line m ("GOOGLE_CLOUD_AGENT_ENGINE_ENABLE_TELEMETRY=true" +:+ nl)
  = <["GOOGLE_CLOUD_AGENT_ENGINE_ENABLE_TELEMETRY" := "true"]> m.
Proof. reflexivity. Qed.

Lemma env_line_telemetry2 m :
  env_line m ("OTEL_INSTRUMENTATION_GENAI_CAPTURE_MESSAGE_CONTENT=true" +:+ nl)
  = <["OTEL_INSTRUMENTATION_GENAI_CAPTURE_MESSAGE_CONTENT" := "true"]> m.
Proof. reflexivity. Qed.

(** The keys the [.env] step adds are new, so the old ones keep their
    value. *)
Lemma env_text_keeps d :
  keeps_env d
    (d +:+ env_text (filter (λ kv, env_vars (universal_newlines d) !! kv.1 = None)
                       telemetry_vars)).
Proof.
  intros k v Hk. unfold env_text.
  change (nl +:+ ?t) with (String LF t). rewrite env_vars_app_nl.
  set (m := env_vars (universal_newlines d)) in *.
  unfold telemetry_vars. rewrite !filter_cons, filter_nil. cbn [fst].
  destruct (m !! "GOOGLE_CLOUD_AGENT_ENGINE_ENABLE_TELEMETRY") as [v1|] eqn:H1;
    destruct (m !! "OTEL_INSTRUMENTATION_GENAI_CAPTURE_MESSAGE_CONTENT") as [v2|] eqn:H2;
    rewrite ?(decide_True (P := None = None)) by done;
    rewrite ?(decide_False (P := Some _ = None)) by done;
    cbv iota.
  - exact Hk.
  - change (foldl env_line m _) with
      (<["OTEL_INSTRUMENTATION_GENAI_CAPTURE_MESSAGE_CONTENT" := "true"]> m).
    rewrite lookup_insert_ne; [done|]. intros <-. congruence.
  - change (foldl env_line m _) with
      (<["GOOGLE_CLOUD_AGENT_ENGINE_ENABLE_TELEMETRY" := "true"]> m).
    rewrite lookup_insert_ne; [done|]. intros <-. congruence.
  - change (foldl env_line m _) with
      (<["OTEL_INSTRUMENTATION_GENAI_CAPTURE_MESSAGE_CONTENT" := "true"]>
         (<["GOOGLE_CLOUD_AGENT_ENGINE_ENABLE_TELEMETRY" := "true"]> m)).
    rewrite !lookup_insert_ne; [done|intros <-; congruence..].
Qed.
Lemma only_appends_ignore_step final_ignores w :
  only_appends w (ignore_step final_ignores w).2.
Proof.
  rewrite ignore_step_run.
  destruct (resolve [".ae_ignore"] (target w)) as [[d|es]|]; cbv beta iota zeta;
    try (destruct (utf8 d); cbv beta iota zeta);
    try (by apply only_appends_refl);
    (destruct (decide (_ ≠ ∅)); [|by apply only_appends_refl]);
    by eapply only_appends_says, only_appends_append_text.
Qed.

Lemma only_appends_requirements_step w :
  only_appends w (requirements_step w).2.
Proof.
  rewrite requirements_step_run.
  destruct (resolve ["requirements.txt"] (target w)) as [[d|es]|]; cbv beta iota zeta;
    try (destruct (utf8 d); cbv beta iota zeta);
    try (by apply only_appends_refl);
    try (destruct (_ && _); [by apply only_appends_refl|]);
    by eapply only_appends_says, only_appends_append_text.
Qed.

Lemma only_appends_env_step w : only_appends w (env_step w).2.
Proof.
  rewrite env_step_run.
  destruct (resolve [".env"] (target w)) as [[d|es]|] eqn:Hres; cbv beta iota zeta;
    try (destruct (utf8 d); cbv beta iota zeta);
    try (by apply only_appends_refl);
    (destruct (decide (_ ≠ [])); [|by apply only_appends_refl]);
    eapply only_appends_says; intros name d' H;
    (destruct (decide (".env" = name)) as [<-|Hne];
     [|exists ""; rewrite app_nil_r, append_text_other by done;
       split; [done|by intros ->]]).
  - cbn [says target] in H. rewrite Hres in H. injection H as <-.
    eexists. split; [|intros _; apply env_text_keeps].
    by apply append_text_same.
  - cbn [says target] in H. congruence.
Qed.

End prepare_appends.

Section prepare_script.
Import Str Prepare.
Variable gcloud : option string.
Variable vertexai_installed : bool.
Variable generate_content : list string → string → string + string.
Implicit Types (w : Prepare.world) (name text d : string).

Lemma llm_step_run files w :
  ∃ printed,
    llm_step gcloud vertexai_installed generate_content files w
    = (Done (suggestions gcloud vertexai_installed generate_content files), Prepare.World (target w) (stdout w ++ printed)).
Proof.
  unfold llm_step, suggestions, get_llm_ignores.
  destruct (get_project_id gcloud) as [p|]; [|by eexists [_]].
  destruct (is_empty p); [by eexists [_]|].
  destruct vertexai_installed; [|by eexists [_]]. simpl.
  destruct (generate_content files p); step_unfold; simpl;
    eexists [_; _]; by rewrite <- (assoc_L (++)).
Qed.

Lemma prepare_agent_run agent_dir w :
  ∃ printed,
    prepare_agent gcloud vertexai_installed generate_content agent_dir w =
    match target w with
    | None =>
        (Done tt, says ("Error: Directory '" +:+ agent_dir +:+ "' not found.")
                    (says ("Preparing agent in: " +:+ agent_dir) w))
    | Some (File _) =>
        (Raised NotADirectoryError, says ("Preparing agent in: " +:+ agent_dir) w)
    | Some (Dir es) =>
        merge_steps
          (baseline_ignores ∪ suggestions gcloud vertexai_installed generate_content (es.*1))
          (Prepare.World (target w) (stdout w ++ printed))
    end.
Proof.
  unfold prepare_agent. destruct w as [t out]. cbn [target].
  destruct t as [[d|es]|].
  - exists []. unfold try_except, listdir, says. by step_unfold.
  - destruct (llm_step_run (es.*1)
                (Prepare.World (Some (Dir es)) (out ++ ["Preparing agent in: " +:+ agent_dir])))
      as [printed Hllm].
    exists (("Preparing agent in: " +:+ agent_dir) :: printed).
    unfold try_except, listdir. step_unfold. cbn [target stdout] in *. rewrite Hllm.
    by rewrite <- (assoc_L (++)).
  - exists []. unfold try_except, listdir, says. by step_unfold.
Qed.

End prepare_script.

Section prepare_claims.
Import Str Prepare.
Variable gcloud : option string.
Variable vertexai_installed : bool.
Variable generate_content : list string → string → string + string.
Implicit Types (w : Prepare.world) (name text d : string).

Lemma only_appends_bind {A B} (m : M Prepare.world A) (f : A → M Prepare.world B) w :
  (∀ w, only_appends w (m w).2) → (∀ a w, only_appends w (f a w).2) →
  only_appends w ((x <- m ;; f x) w).2.
Proof.
  intros Hm Hf. rewrite run_bind. specialize (Hm w).
  destruct (m w) as [[a|e] w1]; [|done].
  eapply only_appends_trans; [exact Hm|apply Hf].
Qed.

Lemma only_appends_merge_steps final_ignores w :
  only_appends w (merge_steps final_ignores w).2.
Proof.
  unfold merge_steps.
  apply only_appends_bind; [apply only_appends_ignore_step|]. intros _ w1.
  apply only_appends_bind; [apply only_appends_requirements_step|]. intros _ w2.
  apply only_appends_bind; [apply only_appends_env_step|]. intros _ w3.
  by apply only_appends_refl.
Qed.

Lemma only_appends_prepare_agent agent_dir w :
  only_appends w (prepare_agent gcloud vertexai_installed generate_content agent_dir w).2.
Proof.
  destruct (prepare_agent_run gcloud vertexai_installed generate_content agent_dir w)
    as [printed ->].
  destruct (target w) as [[d|es]|] eqn:Ht; try (by apply only_appends_refl).
  eapply only_appends_trans; [|apply only_appends_merge_steps].
  by apply only_appends_refl.
Qed.

End prepare_claims.

(** C7.  Whatever a run of [prepare_agent] does and however it ends, a
    file of the agent directory (the ignore file, the requirements file and
    the environment file among them) holds afterwards what it held before,
    followed by what was appended; and a key that was read from [.env]
    before is read with the same value afterwards. *)
Theorem prepare_agent_only_appends gcloud vertexai_installed generate_content
    agent_dir (w : Prepare.world) name d :
  resolve [name] (Prepare.target w) = Some (File d) →
  let w' := (Prepare.prepare_agent gcloud vertexai_installed generate_content agent_dir w).2 in
  ∃ suffix,
    resolve [name] (Prepare.target w') = Some (File (d +:+ suffix))
    ∧ (name = ".env" →
       ∀ k v, Prepare.env_vars (Str.universal_newlines d) !! k = Some v →
              Prepare.env_vars (Str.universal_newlines (d +:+ suffix)) !! k = Some v).
Proof.
  intros H w'. exact (only_appends_prepare_agent _ _ _ agent_dir w name d H).
Qed.

Lemma prepare_agent_only_appends_witness :
  let w := Prepare.World
             (Some (Dir [(".env", File "GOOGLE_CLOUD_AGENT_ENGINE_ENABLE_TELEMETRY = false")]))
             [] in
  let w' := (Prepare.prepare_agent None false (λ _ _, inl "offline") "agent" w).2 in
  ∃ suffix,
    resolve [".env"] (Prepare.target w') =
      Some (File ("GOOGLE_CLOUD_AGENT_ENGINE_ENABLE_TELEMETRY = false" +:+ suffix))
    ∧ Prepare.env_vars
        (Str.universal_newlines ("GOOGLE_CLOUD_AGENT_ENGINE_ENABLE_TELEMETRY = false" +:+ suffix))
      !! "GOOGLE_CLOUD_AGENT_ENGINE_ENABLE_TELEMETRY" = Some "false".
Proof.
  intros w w'.
  destruct (prepare_agent_only_appends None false (λ _ _, inl "offline") "agent" w
              ".env" "GOOGLE_CLOUD_AGENT_ENGINE_ENABLE_TELEMETRY = false" eq_refl)
    as (suffix & Hfile & Hkeys).
  exists suffix. split; [exact Hfile|]. apply (Hkeys eq_refl). reflexivity.
Defined.

(** *** The substring test and universal newlines *)

Section contains_facts.
Import Str.

Lemma startswith_decode_newlines p s :
  plain p = true →
  startswith p (decode_newlines false s) = startswith p s.
Proof.
  revert s. induction p as [|a p IH]; intros s Hp; [done|].
  simpl in Hp. apply andb_true_iff in Hp as [Ha Hp].
  apply andb_true_iff in Ha as [Hcr Hlf].
  apply negb_true_iff in Hcr, Hlf.
  destruct s as [|c s]; [done|]. simpl.
  destruct (Ascii.eqb c CR) eqn:Hc.
  - apply Ascii.eqb_eq in Hc as ->. simpl. by rewrite Hlf, Hcr.
  - destruct (Ascii.eqb c LF) eqn:Hc'.
    + apply Ascii.eqb_eq in Hc' as ->. simpl. by rewrite Hlf.
    + simpl. destruct (Ascii.eqb a c); [by apply IH|done].
Qed.

Lemma contains_decode_newlines p b s :
  plain p = true → p ≠ "" →
  contains p (decode_newlines b s) = contains p s.
Proof.
  intros Hp Hne. destruct p as [|a p]; [done|]. clear Hne.
  assert (Ascii.eqb a CR = false ∧ Ascii.eqb a LF = false) as [Hcr Hlf].
  { simpl in Hp. apply andb_true_iff in Hp as [Ha _].
    apply andb_true_iff in Ha as [Hcr Hlf]. by apply negb_true_iff in Hcr, Hlf. }
  revert b. induction s as [|c s IH]; intros b; [done|].
  cbn [decode_newlines]. destruct (Ascii.eqb c CR) eqn:Hc.
  - apply Ascii.eqb_eq in Hc as ->. cbn [contains startswith].
    by rewrite Hlf, Hcr, IH.
  - destruct (Ascii.eqb c LF) eqn:Hc'.
    + apply Ascii.eqb_eq in Hc' as ->. destruct b; cbn [contains startswith];
        by rewrite ?Hlf, IH.
    + change (contains (String a p) (String c (decode_newlines false s)))
        with (startswith (String a p) (String c (decode_newlines false s))
              || contains (String a p) (decode_newlines false s)).
      change (contains (String a p) (String c s))
        with (startswith (String a p) (String c s) || contains (String a p) s).
      rewrite IH. f_equal.
      rewrite <- (startswith_decode_newlines _ (String c s) Hp).
      cbn [decode_newlines]. by rewrite Hc, Hc'.
Qed.

End contains_facts.

(** C9.  With a requirements file in the agent directory whose bytes [d]
    are text, the dependency step returns, and it leaves the file as it is
    exactly when the text holds both ["google-cloud-aiplatform"] and
    ["agent_engines"] somewhere, wherever they stand; otherwise the file
    ends up being [d] followed by the comment marker and the dependency
    line.  Bytes that do not decode have no text to test: the step raises
    [UnicodeDecodeError] and appends nothing. *)
Theorem requirements_step_is_a_substring_test (w : Prepare.world) d :
  resolve ["requirements.txt"] (Prepare.target w) = Some (File d) →
  let satisfied :=
    Str.contains "google-cloud-aiplatform" d && Str.contains "agent_engines" d in
  let r := Prepare.requirements_step w in
  (Str.utf8 d = true →
   r.1 = Done tt
   ∧ (satisfied = true → Prepare.target r.2 = Prepare.target w)
   ∧ resolve ["requirements.txt"] (Prepare.target r.2) =
       Some (File (if satisfied then d
                   else d +:+ Str.nl +:+ "# Mandatory for Agent Engine" +:+ Str.nl
                          +:+ "google-cloud-aiplatform[agent_engines,adk]" +:+ Str.nl)))
  ∧ (Str.utf8 d = false →
     r.1 = Raised UnicodeDecodeError ∧ Prepare.target r.2 = Prepare.target w).
Proof.
  intros Hres satisfied r. subst satisfied r.
  rewrite requirements_step_run, Hres. cbv beta iota zeta.
  split; intros ->; [|done]. cbv beta iota zeta.
  unfold Str.universal_newlines. rewrite !contains_decode_newlines by done.
  destruct (_ && _); cbn [fst snd says Prepare.target]; [done|].
  set (w0 := says _ w).
  destruct (append_text_same "requirements.txt" requirements_text d w0 Hres) as [Hrun Hfile].
  split_and!; [by rewrite Hrun|done|exact Hfile].
Qed.

Lemma requirements_step_is_a_substring_test_witness :
  let d := "agent_engines" +:+ Str.nl +:+ "# needs google-cloud-aiplatform" in
  let w := Prepare.World (Some (Dir [("requirements.txt", File d)])) [] in
  Prepare.target (Prepare.requirements_step w).2 = Prepare.target w.
Proof.
  intros d w.
  destruct (requirements_step_is_a_substring_test w d eq_refl) as [Htext _].
  destruct (Htext eq_refl) as (_ & Hsame & _).
  exact (Hsame eq_refl).
Defined.

(** *** An empty agent directory *)

(** C5.  In an empty agent directory and with no suggestion from the
    model, [prepare_agent] returns normally and leaves three files: an
    ignore file whose entries are the baseline patterns, a requirements
    file whose only dependency line is the mandatory one, and an
    environment file that defines the two telemetry variables and nothing
    else. *)
Theorem prepare_agent_on_empty_directory gcloud vertexai_installed generate_content
    agent_dir out :
  suggestions gcloud vertexai_installed generate_content [] = ∅ →
  let r := Prepare.prepare_agent gcloud vertexai_installed generate_content agent_dir
             (Prepare.World (Some (Dir [])) out) in
  r.1 = Done tt
  ∧ Prepare.target r.2 =
      Some (Dir [(".ae_ignore", File ae_ignore_created);
                 ("requirements.txt", File requirements_created);
                 (".env", File env_created)])
  ∧ Prepare.ignore_entries (Str.universal_newlines ae_ignore_created)
      = Prepare.baseline_ignores
  ∧ dependency_lines (Str.universal_newlines requirements_created)
      = [Prepare.mandatory_dep]
  ∧ Prepare.env_vars (Str.universal_newlines env_created)
      = list_to_map Prepare.telemetry_vars.
Proof.
  intros Hnone r. subst r.
  destruct (prepare_agent_run gcloud vertexai_installed generate_content agent_dir
              (Prepare.World (Some (Dir [])) out)) as [printed ->].
  cbn [Prepare.target Prepare.stdout fmap list_fmap]. rewrite Hnone.
  split_and!.
  - vm_compute. reflexivity.
  - vm_compute. reflexivity.
  - vm_compute. reflexivity.
  - vm_compute. reflexivity.
  - vm_compute. reflexivity.
Qed.

Lemma prepare_agent_on_empty_directory_witness :
  Prepare.target
    (Prepare.prepare_agent None false (λ _ _, inl "offline") "."
       (Prepare.World (Some (Dir [])) [])).2 =
  Some (Dir [(".ae_ignore", File ae_ignore_created);
             ("requirements.txt", File requirements_created);
             (".env", File env_created)]).
Proof.
  apply (prepare_agent_on_empty_directory None false (λ _ _, inl "offline") "." []).
  reflexivity.
Defined.

(** *** Running the ignore step twice *)

Section ignore_twice.
Import Str Prepare.
Implicit Types (s t d item line : string) (items ls : list string).

Lemma app_nil_l t : "" +:+ t = t.
Proof. reflexivity. Qed.

Lemma elem_of_ignore_entries item text :
  item ∈ ignore_entries text ↔
  ∃ line, line ∈ lines text ∧ strip line ≠ "" ∧ startswith "#" line = false
          ∧ item = strip line.
Proof.
  unfold ignore_entries. rewrite elem_of_list_to_set, list_elem_of_fmap.
  split.
  - intros (line & -> & Hin). apply list_elem_of_filter in Hin as [[? ?] ?]. eauto.
  - intros (line & Hin & ? & ? & ->). exists line. split; [done|].
    by apply list_elem_of_filter.
Qed.

Lemma startswith_hash_app line t :
  line ≠ "" → startswith "#" (line +:+ t) = startswith "#" line.
Proof. destruct line as [|c line]; [done|]. intros _. by rewrite app_cons. Qed.

Lemma elem_of_terminate line ls :
  line ∈ ls → line ∈ terminate ls ∨ line +:+ nl ∈ terminate ls.
Proof.
  induction ls as [|l ls IH]; [by intros ?%elem_of_nil|].
  intros [->|Hin]%elem_of_cons.
  - destruct ls as [|l' ls]; simpl.
    + destruct (ends_lf _); [left|right]; apply elem_of_cons; by left.
    + left. apply elem_of_cons; by left.
  - destruct ls as [|l' ls]; [by apply elem_of_nil in Hin|].
    change (terminate (l :: l' :: ls)) with (l :: terminate (l' :: ls)).
    destruct (IH Hin) as [H|H]; [left|right]; apply elem_of_cons; by right.
Qed.

Lemma ends_cr_app p s t : ends_cr p (s +:+ t) = ends_cr (ends_cr p s) t.
Proof.
  revert p. induction s as [|c s IH]; intros p; [done|].
  rewrite app_cons. simpl. apply IH.
Qed.

Lemma lines_plain_line item t :
  plain item = true → lines (item +:+ String LF t) = (item +:+ nl) :: lines t.
Proof.
  induction item as [|c item IH]; [done|]. rewrite !app_cons. simpl.
  intros [[Hcr Hlf]%andb_true_iff Hp]%andb_true_iff.
  apply negb_true_iff in Hlf. by rewrite Hlf, (IH Hp).
Qed.

Lemma decode_newlines_plain_line item t :
  plain item = true →
  decode_newlines false (item +:+ String LF t) =
  item +:+ String LF (decode_newlines false t).
Proof.
  induction item as [|c item IH]; [done|]. rewrite !app_cons. simpl.
  intros [[Hcr Hlf]%andb_true_iff Hp]%andb_true_iff.
  apply negb_true_iff in Hlf, Hcr. by rewrite Hlf, Hcr, (IH Hp).
Qed.

Lemma written_cons item items :
  written (item :: items) = item +:+ String LF (written items).
Proof. unfold written. simpl. by rewrite app_assoc. Qed.

Lemma decode_newlines_written items :
  Forall (λ item, plain item = true) items →
  decode_newlines false (written items) = written items.
Proof.
  induction 1 as [|item items Hp _ IH]; [done|].
  by rewrite written_cons, (decode_newlines_plain_line _ _ Hp), IH.
Qed.

Lemma lines_written items :
  Forall (λ item, plain item = true) items →
  lines (written items) = (λ item, item +:+ nl) <$> items.
Proof.
  induction 1 as [|item items Hp _ IH]; [done|].
  by rewrite written_cons, (lines_plain_line _ _ Hp), IH.
Qed.

(** After the append, the file still has the entries it had (when it had
    any) and has the entries written. *)
Lemma ignore_entries_after_append d missing :
  (∀ item, item ∈ missing → clean_entry item) →
  let current := ignore_entries (universal_newlines d) in
  current ∪ missing ⊆
  ignore_entries (universal_newlines (d +:+ ignore_text current missing)).
Proof.
  intros Hclean current item Hitem.
  set (items := sorted missing).
  assert (Forall (λ item, plain item = true) items) as Hplain.
  { apply Forall_forall. intros i Hi. apply Hclean.
    unfold items, sorted in Hi. rewrite merge_sort_Permutation in Hi.
    by apply elem_of_elements in Hi. }
  apply elem_of_union in Hitem as [Hold|Hnew].
  - (* an entry that was there *)
    assert (current ≠ ∅) as Hne by (intros Hempty; rewrite Hempty in Hold; by apply not_elem_of_empty in Hold).
    unfold ignore_text. rewrite decide_True by done.
    change (nl +:+ ?t) with (String LF t).
    apply elem_of_ignore_entries in Hold as (line & Hin & Hstrip & Hhash & ->).
    apply elem_of_ignore_entries.
    unfold universal_newlines in *. rewrite decode_newlines_app_nl.
    destruct (ends_cr false d) eqn:Hcr.
    + destruct (decode_newlines_ends_lf _ _ Hcr) as [->|Hlf]; [done|].
      rewrite (lines_app _ _ Hlf). exists line. rewrite elem_of_app. auto.
    + change (String LF ?t) with (nl +:+ t). rewrite <- app_assoc.
      rewrite (lines_app _ _ (ends_lf_snoc _)), lines_snoc_nl.
      destruct (elem_of_terminate _ _ Hin) as [H|H].
      * exists line. rewrite elem_of_app. auto.
      * exists (line +:+ nl). rewrite elem_of_app, strip_app_nl.
        rewrite startswith_hash_app by (by intros ->). auto.
  - (* an entry that was written *)
    destruct (Hclean _ Hnew) as (Hne & Hstrip & Hhash & Hp).
    apply elem_of_ignore_entries. exists (item +:+ nl).
    rewrite strip_app_nl, Hstrip, startswith_hash_app by done.
    split_and!; [|done..].
    assert (d +:+ ignore_text current missing =
            ((d +:+ (if decide (current ≠ ∅) then nl else ""))
               +:+ "# Added by Agent Engine Deployer Skill (Hybrid Analysis)")
              +:+ String LF (written items)) as ->.
    { unfold ignore_text. by rewrite !app_assoc. }
    unfold universal_newlines. rewrite decode_newlines_app_nl, ends_cr_app.
    change (ends_cr _ "# Added by Agent Engine Deployer Skill (Hybrid Analysis)")
      with false. cbv iota.
    change (String LF ?t) with (nl +:+ t). rewrite <- app_assoc.
    rewrite (lines_app _ _ (ends_lf_snoc _)), (decode_newlines_written _ Hplain).
    rewrite (lines_written _ Hplain), elem_of_app. right.
    apply list_elem_of_fmap. exists item. split; [done|].
    unfold items, sorted. rewrite merge_sort_Permutation. by apply elem_of_elements.
Qed.

Lemma append_text_new name text (w : Prepare.world) :
  resolve [name] (target w) = None →
  target (append_text name text w).2 = target w
  ∨ resolve [name] (target (append_text name text w).2) = Some (File text).
Proof.
  intros H. rewrite append_text_run.
  destruct (target w) as [[d|es]|] eqn:Ht; [by left| |by left].
  simpl in H. rewrite H. right. simpl. by rewrite entry_set_entry_eq.
Qed.

Lemma append_text_target name text (w w' : Prepare.world) :
  target w = target w' →
  target (append_text name text w).2 = target (append_text name text w').2.
Proof.
  intros H. rewrite !append_text_run, <- H.
  destruct (target w) as [[d|es]|] eqn:Ht; simpl; try congruence.
  destruct (entry name es) as [[d|es']|]; simpl; congruence.
Qed.

(** With entries that read back as written, the ignore step run a second
    time finds nothing missing and leaves the agent directory alone. *)
Lemma ignore_step_twice final_ignores (w : Prepare.world) :
  (∀ item, item ∈ final_ignores → clean_entry item) →
  let w1 := (ignore_step final_ignores w).2 in
  target (ignore_step final_ignores w1).2 = target w1.
Proof.
  intros Hclean w1.
  assert (∀ d, final_ignores ∖ ignore_entries (universal_newlines
                   (d +:+ ignore_text (ignore_entries (universal_newlines d))
                            (final_ignores ∖ ignore_entries (universal_newlines d))))
               = ∅) as Hdone.
  { intros d. apply set_eq. intros item. split; [|by intros ?%not_elem_of_empty].
    intros [Hin Hnot]%elem_of_difference. destruct Hnot.
    apply ignore_entries_after_append.
    - intros i [Hi _]%elem_of_difference. by apply Hclean.
    - apply elem_of_union.
      destruct (decide (item ∈ ignore_entries (universal_newlines d))); [by left|].
      right. by apply elem_of_difference. }
  subst w1. rewrite (ignore_step_run _ w).
  destruct (resolve [".ae_ignore"] (target w)) as [[d|es]|] eqn:Hres; cbv beta iota zeta.
  - destruct (utf8 d) eqn:Hutf; cbv beta iota zeta;
      [|cbn [snd]; rewrite ignore_step_run, Hres; cbv beta iota zeta; by rewrite Hutf].
    destruct (decide (_ ≠ ∅)) as [Hmiss|Hmiss]; cbn [snd].
    + match goal with |- context [append_text ?n ?t ?w0] =>
        destruct (append_text_same n t d w0 Hres) as [_ Hfile] end.
      rewrite ignore_step_run, Hfile. cbv beta iota zeta.
      match goal with |- context [if utf8 ?x then _ else _] => destruct (utf8 x) end;
        [|done]. cbv beta iota zeta.
      destruct (decide (_ ≠ ∅)) as [Hagain|_]; [by destruct Hagain|done].
    + rewrite ignore_step_run. cbn [says target]. rewrite Hres. cbv beta iota zeta.
      rewrite Hutf. cbv beta iota zeta.
      destruct (decide (_ ≠ ∅)) as [Hagain|_]; [by destruct Hmiss|done].
  - cbn [snd]. by rewrite ignore_step_run, Hres.
  - destruct (decide (_ ≠ ∅)) as [Hmiss|Hmiss]; cbn [snd].
    + match goal with |- context [append_text ?n ?t ?w0] =>
        destruct (append_text_new n t w0 Hres) as [Hsame|Hfile] end.
      * rewrite ignore_step_run, Hsame. cbn [says target]. rewrite Hres.
        cbv beta iota zeta. rewrite decide_True by done.
        etrans; [|exact Hsame]. apply append_text_target. exact Hsame.
      * rewrite ignore_step_run, Hfile. cbv beta iota zeta.
        match goal with |- context [if utf8 ?x then _ else _] => destruct (utf8 x) end;
        [|done]. cbv beta iota zeta.
        specialize (Hdone ""). rewrite app_nil_l in Hdone.
        destruct (decide (_ ≠ ∅)) as [Hagain|_]; [by destruct Hagain|done].
    + rewrite ignore_step_run. cbn [says target]. rewrite Hres. cbv beta iota zeta.
      destruct (decide (_ ≠ ∅)) as [Hagain|_]; [by destruct Hmiss|done].
Qed.

Lemma baseline_ignores_clean item : item ∈ baseline_ignores → clean_entry item.
Proof.
  unfold baseline_ignores. rewrite elem_of_list_to_set. intros H.
  repeat (apply elem_of_cons in H as [->|H]; [by repeat split|]).
  by apply elem_of_nil in H.
Qed.

(** Without suggestions, and with suggestions that read back as written,
    the second run of the ignore step writes nothing. *)
Corollary ignore_step_twice_baseline llm_ignores (w : Prepare.world) :
  (∀ item, item ∈ llm_ignores → clean_entry item) →
  let final_ignores := baseline_ignores ∪ llm_ignores in
  let w1 := (ignore_step final_ignores w).2 in
  target (ignore_step final_ignores w1).2 = target w1.
Proof.
  intros Hclean final_ignores. apply ignore_step_twice.
  intros item [?|?]%elem_of_union; auto using baseline_ignores_clean.
Qed.

End ignore_twice.

(** *** Running the preparation twice *)

(** C4.  The second of two runs in a row writes to the ignore file again
    when the model has suggested a line that starts with [#]: the first run
    appends the line, the second run reads it back as a comment, finds the
    suggestion missing and appends it once more.  (With no suggestion the
    second run writes nothing.) *)
Theorem ignore_step_repeats_a_suggestion_that_reads_as_comment :
  let run := Prepare.prepare_agent gcloud_configured true model_with_heading "." in
  let first := run (Prepare.World (Some (Dir [])) []) in
  let second := run first.2 in
  resolve [".ae_ignore"] (Prepare.target first.2) = Some (File ae_ignore_with_heading)
  ∧ resolve [".ae_ignore"] (Prepare.target second.2) =
      Some (File (ae_ignore_with_heading +:+ Str.nl
                  +:+ "# Added by Agent Engine Deployer Skill (Hybrid Analysis)" +:+ Str.nl
                  +:+ "# Suggested exclusions" +:+ Str.nl))
  ∧ "Adding 1 patterns to .ae_ignore..." ∈ Prepare.stdout second.2
  ∧ let plain_run := Prepare.prepare_agent None false model_with_heading "." in
    Prepare.target (plain_run (plain_run (Prepare.World (Some (Dir [])) [])).2).2
    = Prepare.target (plain_run (Prepare.World (Some (Dir [])) [])).2.
Proof.
  intros run first second. split_and!.
  - vm_compute. reflexivity.
  - vm_compute. reflexivity.
  - vm_compute. set_solver.
  - vm_compute. reflexivity.
Qed.

(** *** Exceptions *)


Section prepare_returns.
Import Str Prepare.
Implicit Types (w : Prepare.world) (name text d : string).







End prepare_returns.



(** * Further properties *)

(** ** The directory synchronizer: what it leaves alone *)

Section sync_frame.
Implicit Types (p q : list string) (r : option node) (w : world).


(** A change at [p] is not seen at a path that parts ways with [p]. *)
Lemma alter_at_frame create f p q r r' :
  diverge p q = true → alter_at create f p r = Done r' →
  resolve q r' = resolve q r.
Proof.
  revert q r r'. induction p as [|k p IH]; intros [|k' q] r r'; try done.
  simpl. intros Hd H.
  assert (∀ es c, alter_at create f p (entry k es) = Done c →
                  resolve q (entry k' (put_entry k c es)) = resolve q (entry k' es))
    as Hstep.
  { intros es c Hc. destruct (decide (k = k')) as [->|Hne].
    - rewrite entry_put_entry_eq. by apply IH.
    - by rewrite entry_put_entry_ne. }
  destruct r as [[d|es]|]; try done.
  - destruct (alter_at create f p (entry k es)) as [c|] eqn:Hc; [|done].
    simpl in H. injection H as <-. by apply Hstep.
  - destruct create; [|done].
    destruct (alter_at true f p None) as [c|] eqn:Hc; [|done].
    simpl in H. injection H as <-.
    rewrite (Hstep [] c Hc). simpl. apply resolve_None.
Qed.

Lemma away_from_refl dest w w' :
  cache w' = cache w → skill w' = skill w → away_from dest w w'.
Proof. intros Hc Hs. split; [done|]. intros q _. by rewrite Hs. Qed.

Lemma away_from_trans dest w1 w2 w3 :
  away_from dest w1 w2 → away_from dest w2 w3 → away_from dest w1 w3.
Proof.
  intros [Hc1 Hs1] [Hc2 Hs2]. split; [congruence|].
  intros q Hq. by rewrite Hs2, Hs1.
Qed.

Lemma away_from_bind {A B} dest (m : M world A) (f : A → M world B) w :
  (∀ w, away_from dest w (m w).2) → (∀ a w, away_from dest w (f a w).2) →
  away_from dest w ((x <- m ;; f x) w).2.
Proof.
  intros Hm Hf. rewrite run_bind. specialize (Hm w).
  destruct (m w) as [[a|e] w1]; [|done].
  eapply away_from_trans; [exact Hm|apply Hf].
Qed.

Lemma away_from_emit dest e w : away_from dest w (emit e w).2.
Proof. by apply away_from_refl. Qed.

Lemma away_from_on_skill dest f w :
  (∀ r r', f r = Done r' → ∀ q, diverge dest q = true → resolve q r' = resolve q r) →
  away_from dest w (on_skill f w).2.
Proof.
  intros Hf. unfold on_skill. destruct (f (skill w)) as [k|e] eqn:Hk.
  - split; [done|]. intros q Hq. by apply (Hf _ _ Hk).
  - by apply away_from_refl.
Qed.

Lemma away_from_sync_directory home tag repo src_rel dest_rel b w :
  away_from (Str.components dest_rel) w
    (Sync.sync_directory home tag repo src_rel dest_rel b w).2.
Proof.
  unfold Sync.sync_directory.
  apply away_from_bind; [apply away_from_emit|]. intros _ w1.
  apply away_from_bind; [by intros w2; apply away_from_refl|]. intros w2 w3.
  destruct (negb _); [apply away_from_emit|].
  apply away_from_bind; [apply away_from_emit|]. intros _ w4.
  apply away_from_bind.
  { intros w5. destruct (exists_at _ _); [|by apply away_from_refl].
    apply away_from_bind; [apply away_from_emit|]. intros _ w6.
    apply away_from_on_skill. intros r r' Hr q Hq.
    by apply (alter_at_frame _ _ _ _ _ _ Hq Hr). }
  intros _ w5. apply away_from_bind; [apply away_from_emit|]. intros _ w6.
  apply away_from_on_skill. intros r r' Hr q Hq. unfold copytree in Hr.
  destruct (resolve _ (cache w2)) as [[d|es]|]; try done.
  by apply (alter_at_frame _ _ _ _ _ _ Hq Hr).
Qed.

End sync_frame.

(** X1.  Whatever a call of [sync_directory] does and however it ends,
    with a destination that stays below the skill folder (no [..], not
    absolute), the cache is as it was, and a path of the skill folder that
    parts ways with the destination leads to what it led to before. *)
Theorem sync_directory_touches_only_the_destination home tag repo src_rel dest_rel b
    (w : world) q :
  within dest_rel = true →
  diverge (Str.components dest_rel) q = true →
  let w' := (Sync.sync_directory home tag repo src_rel dest_rel b w).2 in
  cache w' = cache w ∧ resolve q (skill w') = resolve q (skill w).
Proof.
  intros _ Hq w'.
  destruct (away_from_sync_directory home tag repo src_rel dest_rel b w) as [Hc Hs].
  split; [exact Hc|by apply Hs].
Qed.

Lemma sync_directory_touches_only_the_destination_witness :
  let w := World (Some (Dir [("docs", Dir [("a.md", File "new")])]))
                 (Some (Dir [("docs", Dir [("a.md", File "old")]);
                             ("scripts", Dir [("update_skill.py", File "code")])])) [] in
  resolve ["scripts"; "update_skill.py"]
    (skill (Sync.sync_directory "/home/dev" "A2UI Global Update" "a2ui" "docs" "docs" true w).2)
  = Some (File "code").
Proof.
  intros w.
  apply (sync_directory_touches_only_the_destination "/home/dev" "A2UI Global Update"
           "a2ui" "docs" "docs" true w ["scripts"; "update_skill.py"]);
    reflexivity.
Defined.


(** ** The directory synchronizer: what it writes *)

Section sync_result.
Implicit Types (p q : list string) (r : option node) (w : world).

(** Nothing ignored: the copy is the tree itself. *)
Lemma copy_of_all : ∀ n, copy_of (λ _, false) n = n.
Proof.
  fix IH 1. intros [d|es]; [done|]. simpl. f_equal.
  induction es as [|[k c] es IHes]; [done|]. by rewrite IH, IHes.
Qed.

(** The three ways a call can go when the source exists. *)
Lemma sync_directory_run home tag repo src_rel dest_rel b w n o w' :
  resolve (Str.components src_rel) (cache w) = Some n →
  Sync.sync_directory home tag repo src_rel dest_rel b w = (o, w') →
  let dest := Str.components dest_rel in
  cache w' = cache w
  ∧ match (if exists_at dest (skill w) then rmtree dest (skill w) else Done (skill w)) with
    | Raised e => o = Raised e ∧ skill w' = skill w
    | Done k =>
        resolve dest k = None
        ∧ match copytree (sync_ignore_if b) (Some n) dest k with
          | Raised e => o = Raised e ∧ skill w' = k
          | Done k' => o = Done tt ∧ skill w' = k'
                       ∧ resolve dest k' = Some (copy_of (sync_ignore_if b) n)
          end
    end.
Proof.
  intros Hn H dest. unfold Sync.sync_directory in H. fold dest in H.
  rewrite run_bind in H. cbn [emit] in H. rewrite run_bind in H. cbn [get cache] in H.
  assert (exists_at (Str.components src_rel) (cache w) = true) as Hsrc
    by (apply exists_at_true; eauto).
  rewrite Hsrc in H. cbn [negb] in H.
  rewrite run_bind in H. unfold Sync.log in H. cbn [emit cache skill trace] in H.
  rewrite run_bind in H. rewrite Hn in H.
  change (if b then ignore_patterns _ else _) with (sync_ignore_if b) in H.
  assert (∀ k tr,
    (emit (Copytree src_rel dest_rel) ;;
     on_skill (copytree (sync_ignore_if b) (Some n) dest)) (World (cache w) k tr) = (o, w') →
    cache w' = cache w
    ∧ match copytree (sync_ignore_if b) (Some n) dest k with
      | Raised e => o = Raised e ∧ skill w' = k
      | Done k' => o = Done tt ∧ skill w' = k'
                   ∧ resolve dest k' = Some (copy_of (sync_ignore_if b) n)
      end) as Hcopy.
  { intros k tr Hc. rewrite run_bind in Hc. cbn [emit] in Hc. unfold on_skill in Hc.
    cbn [skill cache trace set_skill] in Hc.
    destruct (copytree _ _ _ k) as [k'|e] eqn:Hcp; injection Hc as <- <-; [|done].
    split_and!; try done.
    by apply copytree_resolve in Hcp as (n' & [= <-] & Hres). }
  destruct (exists_at dest (skill w)) eqn:Hd.
  - rewrite run_bind in H. cbn [emit] in H. unfold on_skill at 1 in H.
    cbn [skill cache trace set_skill] in H.
    destruct (rmtree dest (skill w)) as [k|e] eqn:Hrm; cbv beta iota in H.
    + apply Hcopy in H as [Hc Hk]. split_and!; try done. by apply rmtree_resolve in Hrm.
    + by injection H as <- <-.
  - cbn [ret] in H. apply Hcopy in H as [Hc Hk]. split_and!; try done.
    by apply exists_at_false.
Qed.

(** A directory can be removed. *)
Lemma rmtree_dir p r es : resolve p r = Some (Dir es) → ∃ k, rmtree p r = Done k.
Proof.
  unfold rmtree. revert r. induction p as [|k p IH]; intros r H; simpl in *.
  - rewrite H. by eexists.
  - destruct r as [[d|es']|]; try done. destruct (IH _ H) as [c ->]. by eexists.
Qed.

End sync_result.

(** X2.  Called with [exclude_node_modules=False], a [sync_directory] that
    returns leaves an exact copy of the source at the destination: every
    path below the destination leads to what the same path leads to below
    the source, ignored names included. *)
Theorem sync_directory_without_filter_copies_everything home tag repo src_rel dest_rel
    (w w' : world) :
  is_Some (resolve (Str.components src_rel) (cache w)) →
  Sync.sync_directory home tag repo src_rel dest_rel false w = (Done tt, w') →
  ∀ q, resolve (Str.components dest_rel ++ q) (skill w')
       = resolve (Str.components src_rel ++ q) (cache w).
Proof.
  intros [n Hn] H q.
  destruct (sync_directory_run _ _ _ _ _ _ _ _ _ _ Hn H) as [_ Hrun].
  destruct (if exists_at _ _ then _ else _) as [k|e]; [|by destruct Hrun].
  destruct Hrun as [_ Hrun].
  destruct (copytree _ _ _ k) as [k'|e]; [|by destruct Hrun].
  destruct Hrun as (_ & -> & Hres).
  rewrite !resolve_app, Hres, Hn. simpl. by rewrite copy_of_all.
Qed.

Lemma sync_directory_without_filter_copies_everything_witness :
  let w := World (Some (Dir [("tools", Dir [(".git", Dir [("HEAD", File "ref")])])]))
                 (Some (Dir [])) [] in
  resolve ["tools"; ".git"; "HEAD"]
    (skill (Sync.sync_directory "/home/dev" "A2UI Global Update" "a2ui" "tools" "tools"
              false w).2)
  = Some (File "ref").
Proof.
  intros w.
  assert (is_Some (resolve (Str.components "tools") (cache w))) as Hsrc by (by eexists).
  exact (sync_directory_without_filter_copies_everything "/home/dev" "A2UI Global Update"
           "a2ui" "tools" "tools" w _ Hsrc eq_refl [".git"; "HEAD"]).
Defined.

(** X3.  When the source of a mapping is a regular file and the destination
    is a directory, [sync_directory] has already removed the destination when
    [shutil.copytree] raises [NotADirectoryError]: the call ends with that
    exception and nothing is left at the destination. *)
Theorem sync_directory_loses_destination_when_source_is_a_file home tag repo
    src_rel dest_rel b (w : world) d es :
  resolve (Str.components src_rel) (cache w) = Some (File d) →
  resolve (Str.components dest_rel) (skill w) = Some (Dir es) →
  let r := Sync.sync_directory home tag repo src_rel dest_rel b w in
  r.1 = Raised NotADirectoryError
  ∧ resolve (Str.components dest_rel) (skill r.2) = None.
Proof.
  intros Hsrc Hdest r.
  destruct (sync_directory_run home tag repo src_rel dest_rel b w _ r.1 r.2 Hsrc)
    as [_ Hrun]; [apply surjective_pairing|].
  rewrite (proj2 (exists_at_true _ _)) in Hrun by (by eexists).
  destruct (rmtree_dir _ _ _ Hdest) as [k Hk]. rewrite Hk in Hrun.
  destruct Hrun as [Hgone [-> ->]]. done.
Qed.

Lemma sync_directory_loses_destination_when_source_is_a_file_witness :
  let w := World (Some (Dir [("docs", File "moved to the wiki")]))
                 (Some (Dir [("docs", Dir [("guide.md", File "text")])])) [] in
  let r := Sync.sync_directory "/home/dev" "ADK Global Update" "adk" "docs" "docs" true w in
  r.1 = Raised NotADirectoryError ∧ resolve ["docs"] (skill r.2) = None.
Proof.
  intros w.
  exact (sync_directory_loses_destination_when_source_is_a_file "/home/dev"
           "ADK Global Update" "adk" "docs" "docs" true w "moved to the wiki"
           [("guide.md", File "text")] eq_refl eq_refl).
Defined.


(** ** A whole run of the update scripts *)

Section sync_runs.
Variables USER_HOME tag repo : string.
Implicit Types (w : world) (m : string * string) (ms : list (string * string)).

(** A missing source: a warning, and nothing else. *)
Lemma sync_directory_skip src_rel dest_rel b w :
  resolve (Str.components src_rel) (cache w) = None →
  ∃ line, Sync.sync_directory USER_HOME tag repo src_rel dest_rel b w =
          (Done tt, World (cache w) (skill w)
                      ((trace w ++ [Sync_directory src_rel dest_rel]) ++ [Print line])).
Proof.
  intros Hsrc. apply exists_at_false in Hsrc. unfold Sync.sync_directory.
  rewrite run_bind. cbn [emit]. rewrite run_bind. cbn [get cache].
  rewrite Hsrc. by eexists.
Qed.


Lemma for_each_app {A} (l1 l2 : list A) (f : A → M world unit) w :
  for_each (l1 ++ l2) f w = (for_each l1 f ;; for_each l2 f) w.
Proof.
  revert w. induction l1 as [|a l1 IH]; intros w; [done|].
  simpl. rewrite !run_bind. destruct (f a w) as [[[]|e] w1]; [|done].
  by rewrite IH, run_bind.
Qed.


End sync_runs.


(** ** The cache manager never touches the skill folder *)

Section keeps_skill.
Variable sh : string → list (string * node) → bool * list (string * node).
Variables USER_HOME tag : string.






End keeps_skill.




(** ** What [main] leaves in the skill folder *)

Section main_runs.
Variable sh : string → list (string * node) → bool * list (string * node).
Variables USER_HOME SKILL_ROOT : string.
Implicit Types (w : world) (m : string * string) (q : list string).


(** The two loops of the A2UI script are one loop over all the mappings. *)
Lemma a2ui_syncs_run w :
  a2ui_syncs USER_HOME w =
  (for_each a2ui_mappings
     (λ m, Sync.sync_directory USER_HOME "A2UI Global Update" "a2ui" m.1 m.2 true) ;;
   A2UI.log "Global Update complete. Skill is synchronized.") w.
Proof.
  unfold a2ui_syncs, a2ui_mappings.
  rewrite (run_bind (for_each (_ ++ _) _)), for_each_app, !run_bind.
  change (for_each A2UI.DIRECTORIES_TO_SYNC _ w) with
    (for_each ((λ d, (d, d)) <$> A2UI.DIRECTORIES_TO_SYNC)
       (λ m, Sync.sync_directory USER_HOME "A2UI Global Update" "a2ui" m.1 m.2 true) w).
  by destruct (for_each (_ <$> _) _ w) as [[[]|e] w1].
Qed.

(** The sync steps of the ADK script, one after the other. *)
Lemma adk_syncs_run w :
  adk_syncs USER_HOME w =
  match Sync.sync_directory USER_HOME "ADK Global Update" "adk"
          "contributing/samples" "examples" true w with
  | (Done _, w1) =>
      match (if exists_at ["docs"] (cache w1)
             then Sync.sync_directory USER_HOME "ADK Global Update" "adk" "docs" "docs" true
             else ret tt) w1 with
      | (Done _, w2) =>
          (Done tt, World (cache w2) (skill w2)
                      (trace w2 ++ [Print "[ADK Global Update] Global Update complete. Skill is synchronized."]))
      | (Raised e, w2) => (Raised e, w2)
      end
  | (Raised e, w1) => (Raised e, w1)
  end.
Proof.
  transitivity
    (match Sync.sync_directory USER_HOME "ADK Global Update" "adk"
             "contributing/samples" "examples" true w with
     | (Done _, w1) =>
         ((if exists_at ["docs"] (cache w1)
           then Sync.sync_directory USER_HOME "ADK Global Update" "adk" "docs" "docs" true
           else ret tt) ;;
          ADK.log "Global Update complete. Skill is synchronized.") w1
     | (Raised e, w1) => (Raised e, w1)
     end).
  - unfold adk_syncs, ADK.DIRECTORIES_TO_SYNC, ADK.sync_directory.
    cbn [for_each]. rewrite samples_target, !run_bind.
    by destruct (Sync.sync_directory _ _ _ _ _ _ w) as [[[]|e] w1].
  - destruct (Sync.sync_directory _ _ _ _ _ _ w) as [[[]|e] w1]; [|done].
    rewrite run_bind. destruct (exists_at ["docs"] (cache w1)); [|done].
    by destruct (Sync.sync_directory _ _ _ _ _ _ w1) as [[[]|e] w2].
Qed.

End main_runs.












(** ** What the update scripts raise *)

Section sync_raises.
Implicit Types (p : list string) (r : option node) (w : world) (e : exn).

Lemma rmtree_raises p r e :
  is_Some (resolve p r) → rmtree p r = Raised e → e = NotADirectoryError.
Proof.
  unfold rmtree. revert r. induction p as [|k p IH]; intros r [n Hn] H; simpl in *.
  - rewrite Hn in H. destruct n; by simplify_eq.
  - destruct r as [[d|es]|]; try done.
    destruct (alter_at _ _ p (entry k es)) as [c|e'] eqn:Hc; [done|].
    injection H as <-. by apply (IH (entry k es)).
Qed.

Lemma copytree_raises ignore n p r e :
  resolve p r = None → copytree ignore (Some n) p r = Raised e →
  e = NotADirectoryError.
Proof.
  intros Hp H. unfold copytree in H. destruct n as [d|es]; [by simplify_eq|].
  revert r Hp H. induction p as [|k p IH]; intros r Hp H; simpl in *.
  - by rewrite Hp in H.
  - destruct r as [[d|es']|]; [by simplify_eq| |].
    + destruct (alter_at _ _ p (entry k es')) as [c|e'] eqn:Hc; [done|].
      injection H as <-. by apply (IH (entry k es')).
    + destruct (alter_at _ _ p None) as [c|e'] eqn:Hc; [done|].
      injection H as <-. apply (IH None); [apply resolve_None|done].
Qed.

Lemma sync_directory_raises home tag repo src_rel dest_rel b w e :
  (Sync.sync_directory home tag repo src_rel dest_rel b w).1 = Raised e →
  e = NotADirectoryError.
Proof.
  intros H.
  destruct (resolve (Str.components src_rel) (cache w)) as [n|] eqn:Hn.
  - destruct (Sync.sync_directory home tag repo src_rel dest_rel b w) as [o w'] eqn:Hrun.
    cbn [fst] in H. subst o.
    destruct (sync_directory_run _ _ _ _ _ _ _ _ _ _ Hn Hrun) as [_ Hcases].
    destruct (exists_at _ (skill w)) eqn:Hd.
    + destruct (rmtree _ (skill w)) as [k|e'] eqn:Hrm.
      * destruct Hcases as [Hk Hcases].
        destruct (copytree _ _ _ k) as [k'|e'] eqn:Hcp; [by destruct Hcases|].
        destruct Hcases as [[= <-] _]. by apply (copytree_raises _ _ _ _ _ Hk Hcp).
      * destruct Hcases as [[= <-] _].
        by apply exists_at_true in Hd; apply (rmtree_raises _ _ _ Hd Hrm).
    + destruct Hcases as [Hk Hcases].
      destruct (copytree _ _ _ (skill w)) as [k'|e'] eqn:Hcp; [by destruct Hcases|].
      destruct Hcases as [[= <-] _]. by apply (copytree_raises _ _ _ _ _ Hk Hcp).
  - destruct (sync_directory_skip home tag repo src_rel dest_rel b w Hn) as [line Hskip].
    by rewrite Hskip in H.
Qed.

Lemma for_each_sync_raises home tag repo (ms : list (string * string)) w e :
  (for_each ms (λ m, Sync.sync_directory home tag repo m.1 m.2 true) w).1 = Raised e →
  e = NotADirectoryError.
Proof.
  revert w. induction ms as [|m ms IH]; intros w H; [done|].
  simpl in H. rewrite run_bind in H.
  destruct (Sync.sync_directory _ _ _ _ _ _ w) as [[[]|e'] w1] eqn:Hm.
  - by apply (IH w1).
  - cbn [fst] in H. injection H as <-.
    apply (sync_directory_raises home tag repo m.1 m.2 true w). by rewrite Hm.
Qed.

Lemma a2ui_syncs_raises home w e :
  (a2ui_syncs home w).1 = Raised e → e = NotADirectoryError.
Proof.
  rewrite a2ui_syncs_run, run_bind. intros H.
  destruct (for_each a2ui_mappings _ w) as [[[]|e'] w1] eqn:Hloop; [done|].
  cbn [fst] in H. injection H as <-.
  apply (for_each_sync_raises home "A2UI Global Update" "a2ui" a2ui_mappings w).
  by rewrite Hloop.
Qed.

Lemma adk_syncs_raises home w e :
  (adk_syncs home w).1 = Raised e → e = NotADirectoryError.
Proof.
  rewrite adk_syncs_run. intros H.
  destruct (Sync.sync_directory _ _ _ "contributing/samples" _ _ w)
    as [[[]|e'] w1] eqn:H1.
  - destruct (exists_at ["docs"] (cache w1)); [|done].
    destruct (Sync.sync_directory _ _ _ "docs" _ _ w1) as [[[]|e'] w2] eqn:H2; [done|].
    cbn [fst] in H. injection H as <-.
    apply (sync_directory_raises home "ADK Global Update" "adk" "docs" "docs" true w1).
    by rewrite H2.
  - cbn [fst] in H. injection H as <-.
    apply (sync_directory_raises home "ADK Global Update" "adk"
             "contributing/samples" "examples" true w).
    by rewrite H1.
Qed.

End sync_raises.




(** ** How [main] ends early *)

Section main_ends.
Variable sh : string → list (string * node) → bool * list (string * node).
Variables USER_HOME SKILL_ROOT : string.
Implicit Types (sk : option node) (tr : list event) (d : string).

(** A regular file at the cache path: the pull has no directory to run in. *)
Lemma a2ui_ensure_file d sk tr :
  A2UI.ensure_repo_updated sh USER_HOME (World (Some (File d)) sk tr) =
    (Raised NotADirectoryError,
     World (Some (File d)) sk
       (tr ++ [Print ("[A2UI Global Update] Repo cache found at "
                      +:+ A2UI.REPO_CACHE_PATH USER_HOME
                      +:+ ". Pulling latest changes...")])).
Proof. reflexivity. Qed.

(** For the ADK script such a file is "not a git repo", and [rmtree] fails
    on it. *)
Lemma adk_ensure_file d sk tr :
  ADK.ensure_repo_updated sh USER_HOME (World (Some (File d)) sk tr) =
    (Raised NotADirectoryError,
     World (Some (File d)) sk
       (tr ++ [Print ("[ADK Global Update] Repo cache found at "
                      +:+ ADK.REPO_CACHE_PATH USER_HOME
                      +:+ ". Pulling latest changes...");
               Print "[ADK Global Update] Cache directory exists but is not a git repo. Re-cloning...";
               Rmtree_cache])).
Proof.
  unfold ADK.ensure_repo_updated. run_script. by rewrite <- !(assoc_L (++)).
Qed.

End main_ends.

(** X9.  The A2UI script ends with [sys.exit] in one case only: there was
    no cache and the clone failed.  The status is then 1, the skill folder
    is untouched, and the cache path is a directory that holds what the
    failed clone left. *)
Theorem a2ui_main_exit sh USER_HOME SKILL_ROOT (w : world) code :
  (A2UI.main sh USER_HOME SKILL_ROOT w).1 = Raised (SystemExit code) →
  code = 1%Z ∧ cache w = None ∧ (sh A2UI.clone_command []).1 = false
  ∧ cache (A2UI.main sh USER_HOME SKILL_ROOT w).2
    = Some (Dir (sh A2UI.clone_command []).2)
  ∧ skill (A2UI.main sh USER_HOME SKILL_ROOT w).2 = skill w.
Proof.
  destruct w as [c sk tr]. rewrite a2ui_main_run. cbn [cache skill trace].
  destruct c as [[d|es]|].
  - by rewrite a2ui_ensure_file.
  - rewrite a2ui_ensure_present. by intros ?%a2ui_syncs_raises.
  - rewrite a2ui_ensure_absent. destruct (sh A2UI.clone_command []) as [[] es].
    + by intros ?%a2ui_syncs_raises.
    + cbn. by intros [= <-].
Qed.

Lemma a2ui_main_exit_witness :
  let w := World None (Some (Dir [("docs", Dir [])])) [] in
  (A2UI.main sh_interrupted "/home/dev" "/skill" w).1 = Raised (SystemExit 1)
  ∧ cache (A2UI.main sh_interrupted "/home/dev" "/skill" w).2
    = Some (Dir [(".git", Dir [("FETCH_HEAD", File "")])])
  ∧ skill (A2UI.main sh_interrupted "/home/dev" "/skill" w).2 = skill w.
Proof.
  intros w.
  assert ((A2UI.main sh_interrupted "/home/dev" "/skill" w).1 = Raised (SystemExit 1)) as H
    by (vm_compute; reflexivity).
  split; [exact H|].
  destruct (a2ui_main_exit sh_interrupted "/home/dev" "/skill" w 1 H)
    as (_ & _ & _ & Hcache & Hskill).
  split; [exact Hcache|exact Hskill].
Defined.

(** X10.  The ADK script ends with [sys.exit] when the clone failed, and it
    clones when there was no cache or the cache directory had no [.git]
    entry.  The status is 1 and the skill folder is untouched; the cache
    path is a directory that holds what the failed clone left, so what a
    cache without [.git] held before is lost. *)
Theorem adk_main_exit sh USER_HOME SKILL_ROOT (w : world) code :
  (ADK.main sh USER_HOME SKILL_ROOT w).1 = Raised (SystemExit code) →
  code = 1%Z
  ∧ (cache w = None ∨ ∃ es, cache w = Some (Dir es) ∧ entry ".git" es = None)
  ∧ (sh ADK.clone_command []).1 = false
  ∧ cache (ADK.main sh USER_HOME SKILL_ROOT w).2
    = Some (Dir (sh ADK.clone_command []).2)
  ∧ skill (ADK.main sh USER_HOME SKILL_ROOT w).2 = skill w.
Proof.
  destruct w as [c sk tr]. rewrite adk_main_run. cbn [cache skill trace].
  destruct c as [[d|es]|].
  - by rewrite adk_ensure_file.
  - destruct (exists_at [".git"] (Some (Dir es))) eqn:Hgit.
    + rewrite adk_ensure_present by done. by intros ?%adk_syncs_raises.
    + rewrite adk_ensure_not_a_repo by done.
      apply exists_at_false in Hgit. simpl in Hgit.
      destruct (sh ADK.clone_command []) as [[] es'].
      * by intros ?%adk_syncs_raises.
      * cbn. intros [= <-]. split_and!; eauto.
  - rewrite adk_ensure_absent. destruct (sh ADK.clone_command []) as [[] es].
    + by intros ?%adk_syncs_raises.
    + cbn. intros [= <-]. split_and!; eauto.
Qed.

Lemma adk_main_exit_witness :
  let w := World (Some (Dir [("README.md", File "kept by hand")]))
                 (Some (Dir [("docs", Dir [])])) [] in
  (ADK.main sh_offline "/home/dev" "/skill" w).1 = Raised (SystemExit 1)
  ∧ cache (ADK.main sh_offline "/home/dev" "/skill" w).2 = Some (Dir []).
Proof.
  intros w.
  assert ((ADK.main sh_offline "/home/dev" "/skill" w).1 = Raised (SystemExit 1)) as H
    by (vm_compute; reflexivity).
  split; [exact H|].
  apply (adk_main_exit sh_offline "/home/dev" "/skill" w 1 H).
Defined.

(** X11.  With a regular file at the cache path neither script recovers:
    both raise [NotADirectoryError] (the A2UI script from the pull, the ADK
    script from [rmtree]) before any command has run and before any
    directory is synced; the file and the skill folder stay as they are. *)
Theorem main_with_a_file_at_the_cache_path sh USER_HOME SKILL_ROOT (w : world) d :
  cache w = Some (File d) →
  let ends (r : outcome unit * world) :=
    r.1 = Raised NotADirectoryError
    ∧ cache r.2 = cache w ∧ skill r.2 = skill w
    ∧ ∀ e, e ∈ trace r.2 → e ∈ trace w ∨ (∃ line, e = Print line) ∨ e = Rmtree_cache in
  ends (A2UI.main sh USER_HOME SKILL_ROOT w) ∧ ends (ADK.main sh USER_HOME SKILL_ROOT w).
Proof.
  destruct w as [c sk tr]. cbn [cache skill trace]. intros ->. cbv beta zeta.
  rewrite a2ui_main_run, adk_main_run. cbn [cache skill trace].
  rewrite a2ui_ensure_file, adk_ensure_file. cbn [fst snd cache skill trace].
  split; (split_and!; [done..|]); intros e;
    rewrite !elem_of_app, ?elem_of_cons, elem_of_nil; intuition (subst; eauto).
Qed.

Lemma main_with_a_file_at_the_cache_path_witness :
  let w := World (Some (File "not a directory")) (Some (Dir [("docs", Dir [])])) [] in
  (A2UI.main sh_offline "/home/dev" "/skill" w).1 = Raised NotADirectoryError
  ∧ (ADK.main sh_offline "/home/dev" "/skill" w).1 = Raised NotADirectoryError.
Proof.
  intros w.
  destruct (main_with_a_file_at_the_cache_path sh_offline "/home/dev" "/skill" w
              "not a directory" eq_refl) as [[Ha _] [Hb _]].
  split; [exact Ha|exact Hb].
Defined.


(** ** The preparation utility: what it leaves alone *)

Section prepare_frame.
Import Str Prepare.
Implicit Types (w : Prepare.world) (name : string).

Lemma ignore_step_other final_ignores name w :
  name ≠ ".ae_ignore" →
  resolve [name] (target (ignore_step final_ignores w).2) = resolve [name] (target w).
Proof.
  intros Hne. rewrite ignore_step_run.
  destruct (resolve [".ae_ignore"] (target w)) as [[d|es]|]; cbv beta iota zeta;
    try (destruct (utf8 d); cbv beta iota zeta); try done;
    (destruct (decide (_ ≠ ∅)); [|done]); by rewrite append_text_other.
Qed.

Lemma requirements_step_other name w :
  name ≠ "requirements.txt" →
  resolve [name] (target (requirements_step w).2) = resolve [name] (target w).
Proof.
  intros Hne. rewrite requirements_step_run.
  destruct (resolve ["requirements.txt"] (target w)) as [[d|es]|]; cbv beta iota zeta;
    try (destruct (utf8 d); cbv beta iota zeta); try done;
    try (destruct (_ && _); [done|]); cbv iota; by rewrite append_text_other.
Qed.

Lemma env_step_other name w :
  name ≠ ".env" →
  resolve [name] (target (env_step w).2) = resolve [name] (target w).
Proof.
  intros Hne. rewrite env_step_run.
  destruct (resolve [".env"] (target w)) as [[d|es]|]; cbv beta iota zeta;
    try (destruct (utf8 d); cbv beta iota zeta); try done;
    (destruct (decide (_ ≠ [])); [|done]); by rewrite append_text_other.
Qed.

(** [merge_steps], step by step. *)
Lemma merge_steps_run final_ignores w :
  merge_steps final_ignores w =
  match ignore_step final_ignores w with
  | (Done _, w1) =>
      match requirements_step w1 with
      | (Done _, w2) =>
          match env_step w2 with
          | (Done _, w3) =>
              (Done tt, says (nl +:+ "[SUCCESS] Agent is ready for deployment configuration!") w3)
          | (Raised e, w3) => (Raised e, w3)
          end
      | (Raised e, w2) => (Raised e, w2)
      end
  | (Raised e, w1) => (Raised e, w1)
  end.
Proof.
  unfold merge_steps. rewrite run_bind.
  destruct (ignore_step final_ignores w) as [[[]|e] w1]; [|done]. rewrite run_bind.
  destruct (requirements_step w1) as [[[]|e] w2]; [|done]. rewrite run_bind.
  by destruct (env_step w2) as [[[]|e] w3].
Qed.

Lemma merge_steps_other final_ignores name w :
  name ∉ [".ae_ignore"; "requirements.txt"; ".env"] →
  resolve [name] (target (merge_steps final_ignores w).2) = resolve [name] (target w).
Proof.
  intros Hname.
  assert (name ≠ ".ae_ignore" ∧ name ≠ "requirements.txt" ∧ name ≠ ".env")
    as (Hi & Hr & He).
  { rewrite !not_elem_of_cons in Hname. tauto. }
  rewrite merge_steps_run.
  pose proof (ignore_step_other final_ignores name w Hi) as H1.
  destruct (ignore_step final_ignores w) as [[[]|e] w1]; cbn [snd] in *; [|done].
  pose proof (requirements_step_other name w1 Hr) as H2.
  destruct (requirements_step w1) as [[[]|e] w2]; cbn [snd] in *; [|congruence].
  pose proof (env_step_other name w2 He) as H3.
  destruct (env_step w2) as [[[]|e] w3]; cbn [snd says target] in *; congruence.
Qed.

End prepare_frame.

(** X12.  Whatever a run of [prepare_agent] does and however it ends, an
    entry of the agent directory other than [.ae_ignore], [requirements.txt]
    and [.env] is as it was, with all that is below it. *)
Theorem prepare_agent_touches_only_three_files gcloud vertexai_installed
    generate_content agent_dir (w : Prepare.world) name rest :
  name ∉ [".ae_ignore"; "requirements.txt"; ".env"] →
  let w' := (Prepare.prepare_agent gcloud vertexai_installed generate_content agent_dir w).2 in
  resolve (name :: rest) (Prepare.target w') = resolve (name :: rest) (Prepare.target w).
Proof.
  intros Hname w'.
  change (name :: rest) with ([name] ++ rest). rewrite !resolve_app. f_equal.
  subst w'.
  destruct (prepare_agent_run gcloud vertexai_installed generate_content agent_dir w)
    as [printed ->].
  destruct (Prepare.target w) as [[d|es]|] eqn:Ht; cbn [snd says Prepare.target];
    rewrite ?Ht; try done.
  by rewrite merge_steps_other.
Qed.

Lemma prepare_agent_touches_only_three_files_witness :
  let w := Prepare.World
             (Some (Dir [("agent.py", File "root_agent = None");
                         ("requirements.txt", File "google-adk")])) [] in
  resolve ["agent.py"]
    (Prepare.target (Prepare.prepare_agent None false (λ _ _, inl "offline") "." w).2)
  = resolve ["agent.py"] (Prepare.target w).
Proof.
  intros w.
  apply (prepare_agent_touches_only_three_files None false (λ _ _, inl "offline") "." w
           "agent.py" []).
  rewrite !not_elem_of_cons. split_and!; try done. apply not_elem_of_nil.
Defined.


(** ** The preparation utility: what the merge steps establish *)

Section prepare_post.
Import Str Prepare.
Implicit Types (w : Prepare.world) (name text d : string).

(** The variables read from [.env] once the block of the step is at its
    end: those read before, and the telemetry variables among the missing
    ones. *)
Lemma env_vars_env_text d :
  let m := env_vars (universal_newlines d) in
  env_vars (universal_newlines
              (d +:+ env_text (filter (λ kv, m !! kv.1 = None) telemetry_vars)))
  = m ∪ list_to_map telemetry_vars.
Proof.
  intros m. unfold env_text.
  change (nl +:+ ?t) with (String LF t). rewrite env_vars_app_nl. fold m.
  unfold telemetry_vars. rewrite !filter_cons, filter_nil. cbn [fst].
  apply map_eq. intros k. rewrite lookup_union. cbn [list_to_map foldr fst snd uncurry].
  rewrite !lookup_insert, lookup_empty.
  destruct (m !! "GOOGLE_CLOUD_AGENT_ENGINE_ENABLE_TELEMETRY") as [v1|] eqn:H1;
    destruct (m !! "OTEL_INSTRUMENTATION_GENAI_CAPTURE_MESSAGE_CONTENT") as [v2|] eqn:H2;
    rewrite ?(decide_True (P := None = None)) by done;
    rewrite ?(decide_False (P := Some _ = None)) by done;
    cbv iota.
  - change (foldl env_line m _) with m.
    repeat (destruct (decide (_ = k)) as [<-|?]); rewrite ?H1, ?H2; try done;
      by destruct (m !! k).
  - change (foldl env_line m _) with
      (<["OTEL_INSTRUMENTATION_GENAI_CAPTURE_MESSAGE_CONTENT" := "true"]> m).
    rewrite lookup_insert.
    repeat (destruct (decide (_ = k)) as [<-|?]); rewrite ?H1, ?H2; try done;
      by destruct (m !! k).
  - change (foldl env_line m _) with
      (<["GOOGLE_CLOUD_AGENT_ENGINE_ENABLE_TELEMETRY" := "true"]> m).
    rewrite lookup_insert.
    repeat (destruct (decide (_ = k)) as [<-|?]); rewrite ?H1, ?H2; try done;
      by destruct (m !! k).
  - change (foldl env_line m _) with
      (<["OTEL_INSTRUMENTATION_GENAI_CAPTURE_MESSAGE_CONTENT" := "true"]>
         (<["GOOGLE_CLOUD_AGENT_ENGINE_ENABLE_TELEMETRY" := "true"]> m)).
    rewrite !lookup_insert.
    repeat (destruct (decide (_ = k)) as [<-|?]); rewrite ?H1, ?H2; try done;
      by destruct (m !! k).
Qed.

(** A successful append leaves a file that ends with the text. *)
Lemma append_text_done name text w w' :
  append_text name text w = (Done tt, w') →
  resolve [name] (target w') =
  Some (File (match resolve [name] (target w) with
              | Some (File d) => d +:+ text
              | _ => text
              end)).
Proof.
  rewrite append_text_run. destruct (target w) as [[d|es]|]; try done. simpl.
  destruct (entry name es) as [[d|es']|]; try done;
    intros [= <-]; simpl; by rewrite entry_set_entry_eq.
Qed.

Lemma env_step_post w w' :
  env_step w = (Done tt, w') →
  env_of w' = env_of w ∪ list_to_map telemetry_vars.
Proof.
  rewrite env_step_run. unfold env_of at 2.
  destruct (resolve [".env"] (target w)) as [[d|es]|] eqn:Hres; cbv beta iota zeta;
    [| done |].
  - destruct (utf8 d); [|done]. cbv beta iota zeta.
    destruct (decide (_ ≠ [])) as [Hnew|Hnew].
    + intros Hfile%append_text_done. cbn [says target] in Hfile. rewrite Hres in Hfile.
      unfold env_of. rewrite Hfile. apply env_vars_env_text.
    + intros [= <-]. unfold env_of. cbn [says target]. rewrite Hres.
      apply dec_stable in Hnew.
      pose proof (env_vars_env_text d) as Hpost. cbv zeta in Hpost.
      rewrite Hnew in Hpost. rewrite <- Hpost.
      unfold env_text. change (nl +:+ ?t) with (String LF t).
      by rewrite env_vars_app_nl.
  - rewrite decide_True by done.
    intros Hfile%append_text_done. cbn [says target] in Hfile. rewrite Hres in Hfile.
    unfold env_of. rewrite Hfile.
    pose proof (env_vars_env_text "") as Hpost. cbv zeta in Hpost.
    rewrite app_nil_l in Hpost. exact Hpost.
Qed.

(** With both variables read from [.env], the step writes nothing. *)
Lemma env_step_settled w :
  (∀ kv, kv ∈ telemetry_vars → is_Some (env_of w !! kv.1)) →
  target (env_step w).2 = target w.
Proof.
  intros Hall. rewrite env_step_run. unfold env_of in Hall.
  destruct (resolve [".env"] (target w)) as [[d|es]|] eqn:Hres; cbv beta iota zeta;
    [|done|].
  - destruct (utf8 d); [|done]. cbv beta iota zeta.
    rewrite decide_False; [done|]. intros Hnew. apply Hnew.
    unfold telemetry_vars in *. rewrite !filter_cons, filter_nil. cbn [fst].
    destruct (Hall (_, _) (list_elem_of_here _ _)) as [v1 Hv1].
    destruct (Hall (_, _) (list_elem_of_further _ _ _ (list_elem_of_here _ _))) as [v2 Hv2].
    cbn [fst] in Hv1, Hv2. rewrite Hv1, Hv2.
    by rewrite !decide_False by done.
  - destruct (Hall (_, _) (list_elem_of_here _ _)) as [v1 Hv1].
    by rewrite lookup_empty in Hv1.
Qed.

End prepare_post.


(** X13.  When the [.env] step returns, the variables read from [.env] are
    those read before, together with the telemetry variables that were
    missing, set to [true]; a variable that was there keeps its value. *)
Theorem env_step_defines_telemetry (w w' : Prepare.world) :
  Prepare.env_step w = (Done tt, w') →
  env_of w' = env_of w ∪ list_to_map Prepare.telemetry_vars.
Proof. apply env_step_post. Qed.

Lemma env_step_defines_telemetry_witness :
  let w := Prepare.World
             (Some (Dir [(".env", File "GOOGLE_CLOUD_AGENT_ENGINE_ENABLE_TELEMETRY = false")]))
             [] in
  let w' := (Prepare.env_step w).2 in
  env_of w' = env_of w ∪ list_to_map Prepare.telemetry_vars.
Proof.
  intros w w'. apply (env_step_defines_telemetry w w'). vm_compute. reflexivity.
Defined.

Section requirements_post.
Import Str Prepare.
Implicit Types (w : Prepare.world) (s t p d : string).

Lemma contains_app_r p s t : contains p t = true → contains p (s +:+ t) = true.
Proof.
  intros H. induction s as [|c s IH]; [done|]. rewrite app_cons. simpl.
  rewrite IH. apply orb_true_r.
Qed.

(** The block of the dependency step passes the test of the step and puts
    the dependency on a line of its own, whatever it is appended to. *)
Lemma requirements_text_post d :
  let text := universal_newlines (d +:+ requirements_text) in
  contains "google-cloud-aiplatform" text && contains "agent_engines" text = true
  ∧ mandatory_dep ∈ dependency_lines text.
Proof.
  intros text. split.
  - subst text. unfold universal_newlines.
    rewrite !contains_decode_newlines by done.
    rewrite !contains_app_r; [done|reflexivity..].
  - subst text. unfold dependency_lines.
    apply list_elem_of_filter. split; [done|].
    apply list_elem_of_fmap. exists (mandatory_dep +:+ nl). split; [done|].
    assert (d +:+ requirements_text =
            ((d +:+ nl) +:+ "# Mandatory for Agent Engine")
              +:+ String LF (mandatory_dep +:+ nl)) as ->.
    { unfold requirements_text. by rewrite !app_assoc. }
    unfold universal_newlines. rewrite decode_newlines_app_nl, ends_cr_app.
    change (ends_cr _ "# Mandatory for Agent Engine") with false. cbv iota.
    change (String LF ?t) with (nl +:+ t). rewrite <- app_assoc.
    rewrite (lines_app _ _ (ends_lf_snoc _)), elem_of_app. right.
    change (lines (decode_newlines false (mandatory_dep +:+ nl)))
      with [mandatory_dep +:+ nl].
    apply list_elem_of_here.
Qed.

Lemma requirements_step_post w w' :
  requirements_step w = (Done tt, w') →
  has_dep w' = true
  ∧ (has_dep w = false →
     ∃ d', resolve ["requirements.txt"] (target w') = Some (File d')
           ∧ mandatory_dep ∈ dependency_lines (universal_newlines d')).
Proof.
  rewrite requirements_step_run. unfold has_dep at 2.
  destruct (resolve ["requirements.txt"] (target w)) as [[d|es]|] eqn:Hres;
    cbv beta iota zeta; [| done |].
  - destruct (utf8 d); [|done]. cbv beta iota zeta.
    destruct (_ && _) eqn:Hdep.
    + intros [= <-]. split; [|done]. unfold has_dep. cbn [says target].
      by rewrite Hres.
    + intros Hfile%append_text_done. cbn [says target] in Hfile. rewrite Hres in Hfile.
      destruct (requirements_text_post d) as [Htest Hline].
      unfold has_dep. rewrite Hfile. split; [done|]. intros _. by exists (d +:+ requirements_text).
  - intros Hfile%append_text_done. cbn [says target] in Hfile. rewrite Hres in Hfile.
    destruct (requirements_text_post "") as [Htest Hline].
    rewrite app_nil_l in Htest, Hline.
    unfold has_dep. rewrite Hfile. split; [done|]. intros _. by exists requirements_text.
Qed.

Lemma requirements_step_settled w :
  has_dep w = true → target (requirements_step w).2 = target w.
Proof.
  rewrite requirements_step_run. unfold has_dep.
  destruct (resolve ["requirements.txt"] (target w)) as [[d|es]|];
    cbv beta iota zeta; try done.
  destruct (utf8 d); [|done]. cbv beta iota zeta. by intros ->.
Qed.

End requirements_post.

(** X14.  When the dependency step returns, [requirements.txt] passes the
    test of the step; and when it did not pass before, the file now has the
    line [google-cloud-aiplatform[agent_engines,adk]], on a line of its own
    even when the file did not end with a newline. *)
Theorem requirements_step_adds_the_dependency (w w' : Prepare.world) :
  Prepare.requirements_step w = (Done tt, w') →
  has_dep w' = true
  ∧ (has_dep w = false →
     ∃ d', resolve ["requirements.txt"] (Prepare.target w') = Some (File d')
           ∧ Prepare.mandatory_dep ∈ dependency_lines (Str.universal_newlines d')).
Proof. apply requirements_step_post. Qed.

Lemma requirements_step_adds_the_dependency_witness :
  let w := Prepare.World (Some (Dir [("requirements.txt", File "google-adk")])) [] in
  has_dep (Prepare.requirements_step w).2 = true.
Proof.
  intros w.
  apply (requirements_step_adds_the_dependency w (Prepare.requirements_step w).2).
  vm_compute. reflexivity.
Defined.


Section ignore_post.
Import Str Prepare.
Implicit Types (w : Prepare.world) (final : gset string).

Lemma ignore_step_post final w w' :
  (∀ item, item ∈ final → clean_entry item) →
  ignore_step final w = (Done tt, w') →
  ignore_of w ∪ final ⊆ ignore_of w'.
Proof.
  intros Hclean. rewrite ignore_step_run. unfold ignore_of at 1.
  assert (∀ d, ignore_entries (universal_newlines d) ∪ final ⊆
               ignore_entries (universal_newlines
                 (d +:+ ignore_text (ignore_entries (universal_newlines d))
                          (final ∖ ignore_entries (universal_newlines d))))) as Hpost.
  { intros d item Hitem. apply ignore_entries_after_append.
    - intros i [Hi _]%elem_of_difference. by apply Hclean.
    - apply elem_of_union in Hitem as [?|?]; apply elem_of_union; [by left|].
      destruct (decide (item ∈ ignore_entries (universal_newlines d))); [by left|].
      right. by apply elem_of_difference. }
  assert (∀ (current : gset string), ¬ final ∖ current ≠ ∅ → current ∪ final ⊆ current)
    as Hnone.
  { intros current Hmiss%dec_stable item [?|Hin]%elem_of_union; [done|].
    destruct (decide (item ∈ current)) as [|Hnot]; [done|].
    assert (item ∈ final ∖ current) as Habs by (by apply elem_of_difference).
    rewrite Hmiss in Habs. by apply not_elem_of_empty in Habs. }
  destruct (resolve [".ae_ignore"] (target w)) as [[d|es]|] eqn:Hres;
    cbv beta iota zeta; [| done |].
  - destruct (utf8 d); [|done]. cbv beta iota zeta.
    destruct (decide (_ ≠ ∅)) as [Hmiss|Hmiss].
    + intros Hfile%append_text_done. cbn [says target] in Hfile. rewrite Hres in Hfile.
      unfold ignore_of. rewrite Hfile. apply Hpost.
    + intros [= <-]. unfold ignore_of. cbn [says target]. rewrite Hres.
      by apply Hnone.
  - destruct (decide (_ ≠ ∅)) as [Hmiss|Hmiss].
    + intros Hfile%append_text_done. cbn [says target] in Hfile. rewrite Hres in Hfile.
      unfold ignore_of. rewrite Hfile. apply (Hpost "").
    + intros [= <-]. unfold ignore_of. cbn [says target]. rewrite Hres.
      by apply Hnone.
Qed.

(** With every requested pattern among the entries, the step writes
    nothing. *)
Lemma ignore_step_settled final w :
  final ⊆ ignore_of w → target (ignore_step final w).2 = target w.
Proof.
  intros Hall. rewrite ignore_step_run. unfold ignore_of in Hall.
  assert (∀ current : gset string, final ⊆ current → ¬ final ∖ current ≠ ∅) as Hnone.
  { intros current Hsub Hmiss. apply Hmiss. apply set_eq. intros item.
    rewrite elem_of_difference. split; [|by intros ?%not_elem_of_empty].
    intros [Hin Hnot]. destruct Hnot. by apply Hsub. }
  destruct (resolve [".ae_ignore"] (target w)) as [[d|es]|]; cbv beta iota zeta;
    [|done|]; try (destruct (utf8 d); [|done]; cbv beta iota zeta);
    by rewrite decide_False by (by apply Hnone).
Qed.

End ignore_post.

(** X15.  When the ignore step returns and the requested patterns read back
    as they are written (not empty, no blank at either end, no [#] in front,
    no CR or LF inside), every requested pattern is an entry of
    [.ae_ignore], and so is every entry that was there. *)
Theorem ignore_step_lists_the_patterns final_ignores (w w' : Prepare.world) :
  (∀ item, item ∈ final_ignores → clean_entry item) →
  Prepare.ignore_step final_ignores w = (Done tt, w') →
  ignore_of w ∪ final_ignores ⊆ ignore_of w'.
Proof. apply ignore_step_post. Qed.

Lemma ignore_step_lists_the_patterns_witness :
  let w := Prepare.World (Some (Dir [(".ae_ignore", File "node_modules")])) [] in
  let w' := (Prepare.ignore_step Prepare.baseline_ignores w).2 in
  ignore_of w ∪ Prepare.baseline_ignores ⊆ ignore_of w'.
Proof.
  intros w w'. apply (ignore_step_lists_the_patterns Prepare.baseline_ignores w w').
  - apply baseline_ignores_clean.
  - vm_compute. reflexivity.
Defined.


(** ** Running the preparation again *)

Section prepare_again.
Import Str Prepare.
Implicit Types (w : Prepare.world) (final : gset string).

(** After a run of the three steps that returned, each step finds its file
    settled, in whatever state holds the same agent directory. *)
Lemma merge_steps_settles final w w1 w2 :
  (∀ item, item ∈ final → clean_entry item) →
  merge_steps final w = (Done tt, w1) →
  target w2 = target w1 →
  target (merge_steps final w2).2 = target w2.
Proof.
  intros Hclean H Ht. rewrite merge_steps_run in H.
  destruct (ignore_step final w) as [[[]|e] wa] eqn:Hi; [|done].
  destruct (requirements_step wa) as [[[]|e] wb] eqn:Hr; [|done].
  destruct (env_step wb) as [[[]|e] wc] eqn:He; [|done].
  injection H as <-. cbn [says target] in Ht.
  pose proof (ignore_step_post _ _ _ Hclean Hi) as Pi.
  pose proof (requirements_step_post _ _ Hr) as [Pr _].
  pose proof (env_step_post _ _ He) as Pe.
  pose proof (requirements_step_other ".ae_ignore" wa) as Fr. rewrite Hr in Fr.
  pose proof (env_step_other ".ae_ignore" wb) as Fe1. rewrite He in Fe1.
  pose proof (env_step_other "requirements.txt" wb) as Fe2. rewrite He in Fe2.
  cbn [snd] in Fr, Fe1, Fe2.
  specialize (Fr ltac:(done)). specialize (Fe1 ltac:(done)). specialize (Fe2 ltac:(done)).
  assert (final ⊆ ignore_of w2) as Si.
  { unfold ignore_of. rewrite Ht, Fe1, Fr. intros item Hin. apply Pi.
    apply elem_of_union. by right. }
  assert (has_dep w2 = true) as Sr.
  { unfold has_dep. rewrite Ht, Fe2. exact Pr. }
  assert (∀ kv, kv ∈ telemetry_vars → is_Some (env_of w2 !! kv.1)) as Se.
  { intros kv Hkv. unfold env_of. rewrite Ht. fold (env_of wc). rewrite Pe.
    apply lookup_union_is_Some. right.
    apply list_elem_of_lookup in Hkv as [i Hkv].
    destruct i as [|[|i]]; simpl in Hkv; simplify_eq; by eexists. }
  rewrite merge_steps_run.
  pose proof (ignore_step_settled final w2 Si) as T1.
  destruct (ignore_step final w2) as [[[]|e] wa'] eqn:Hi'; cbn [snd] in *; [|done].
  assert (has_dep wa' = true) as Sr' by (unfold has_dep in *; by rewrite T1).
  pose proof (requirements_step_settled wa' Sr') as T2.
  destruct (requirements_step wa') as [[[]|e] wb'] eqn:Hr'; cbn [snd] in *;
    [|congruence].
  assert (∀ kv, kv ∈ telemetry_vars → is_Some (env_of wb' !! kv.1)) as Se'.
  { intros kv Hkv. unfold env_of in *. rewrite T2, T1. by apply Se. }
  pose proof (env_step_settled wb' Se') as T3.
  destruct (env_step wb') as [[[]|e] wc'] eqn:He'; cbn [snd says target] in *;
    congruence.
Qed.

End prepare_again.

(** X16.  A run of [prepare_agent] that returned is not undone or repeated
    by the next one: when the model step gives the same set whatever the
    listing (as it does without a project, without the client library and
    when the model fails) and its suggestions read back as they are
    written, the second run leaves the agent directory exactly as the first
    one left it. *)
Theorem prepare_agent_twice_changes_nothing gcloud vertexai_installed generate_content
    agent_dir (w w1 : Prepare.world) :
  (∀ files item, item ∈ suggestions gcloud vertexai_installed generate_content files →
                 clean_entry item) →
  (∀ files files', suggestions gcloud vertexai_installed generate_content files
                   = suggestions gcloud vertexai_installed generate_content files') →
  Prepare.prepare_agent gcloud vertexai_installed generate_content agent_dir w
    = (Done tt, w1) →
  Prepare.target
    (Prepare.prepare_agent gcloud vertexai_installed generate_content agent_dir w1).2
  = Prepare.target w1.
Proof.
  intros Hclean Hsame H.
  destruct (prepare_agent_run gcloud vertexai_installed generate_content agent_dir w)
    as [printed Hrun].
  destruct (prepare_agent_run gcloud vertexai_installed generate_content agent_dir w1)
    as [printed1 ->].
  destruct (Prepare.target w1) as [[d1|es1]|] eqn:Ht1; cbn [snd says Prepare.target];
    try done.
  rewrite Hrun in H. destruct (Prepare.target w) as [[d|es]|] eqn:Ht.
  - done.
  - rewrite (Hsame (es1.*1) (es.*1)).
    eapply merge_steps_settles; [|exact H|done].
    intros item [?|?]%elem_of_union; eauto using baseline_ignores_clean.
  - injection H as <-. cbn [says Prepare.target] in Ht1. congruence.
Qed.

Lemma prepare_agent_twice_changes_nothing_witness :
  let run := Prepare.prepare_agent None false (λ _ _, inl "offline") "." in
  let w := Prepare.World
             (Some (Dir [("agent.py", File "root_agent = None");
                         (".env", File "GOOGLE_CLOUD_AGENT_ENGINE_ENABLE_TELEMETRY=false")]))
             [] in
  Prepare.target (run (run w).2).2 = Prepare.target (run w).2.
Proof.
  intros run w.
  apply (prepare_agent_twice_changes_nothing None false (λ _ _, inl "offline") "."
           w (run w).2).
  - intros files item Hin. by apply not_elem_of_empty in Hin.
  - done.
  - vm_compute. reflexivity.
Defined.


(** ** The lines kept from the answer of the model *)

Section clean_lines_facts.
Import Str.
Implicit Types (s p : string) (c : ascii).

Lemma rstrip_rstrip s : rstrip (rstrip s) = rstrip s.
Proof.
  induction s as [|a s IH]; [done|]. simpl.
  destruct (isspace a && is_empty (rstrip s)) eqn:H; [done|].
  simpl. by rewrite IH, H.
Qed.

Lemma lstrip_head s :
  lstrip s = "" ∨ ∃ a t, lstrip s = String a t ∧ isspace a = false.
Proof.
  induction s as [|a s IH]; [by left|]. simpl.
  destruct (isspace a) eqn:H; [done|]. right. by exists a, s.
Qed.

Lemma strip_strip s : strip (strip s) = strip s.
Proof.
  unfold strip. destruct (lstrip_head s) as [->|(a & t & -> & Ha)]; [done|].
  simpl. rewrite Ha. simpl. rewrite Ha. simpl. rewrite Ha. simpl.
  by rewrite rstrip_rstrip.
Qed.

Lemma has_char_lstrip c s : has_char c s = false → has_char c (lstrip s) = false.
Proof.
  induction s as [|a s IH]; [done|]. simpl. intros [Ha Hs]%orb_false_iff.
  destruct (isspace a); [by apply IH|]. simpl. by rewrite Ha, Hs.
Qed.

Lemma has_char_rstrip c s : has_char c s = false → has_char c (rstrip s) = false.
Proof.
  induction s as [|a s IH]; [done|]. simpl. intros [Ha Hs]%orb_false_iff.
  destruct (isspace a && is_empty (rstrip s)); [done|]. simpl. by rewrite Ha, IH.
Qed.

Lemma has_char_split c s p : p ∈ split c s → has_char c p = false.
Proof.
  revert p. induction s as [|a s IH]; intros p; simpl.
  - by intros ->%list_elem_of_singleton.
  - destruct (Ascii.eqb a c) eqn:Ha.
    + intros [->|Hin]%elem_of_cons; [done|]. by apply IH.
    + destruct (split c s) as [|q qs] eqn:Hs.
      * intros ->%list_elem_of_singleton. simpl. by rewrite Ha.
      * intros [->|Hin]%elem_of_cons.
        -- simpl. rewrite Ha. apply IH. by left.
        -- apply IH. by right.
Qed.

Lemma clean_lines_spec response_text line :
  line ∈ Prepare.clean_lines response_text →
  line ≠ "" ∧ strip line = line ∧ has_char LF line = false
  ∧ startswith "```" line = false.
Proof.
  unfold Prepare.clean_lines.
  intros [Hfence [Hne Hin]%list_elem_of_filter]%list_elem_of_filter.
  apply list_elem_of_fmap in Hin as (piece & -> & Hin).
  split_and!; [done|apply strip_strip| |done].
  unfold strip. by apply has_char_rstrip, has_char_lstrip, (has_char_split _ _ _ Hin).
Qed.

End clean_lines_facts.

(** X17.  What is kept of the answer of the model: every line kept is not
    empty, has no blank at either end, holds no LF and does not start with a
    code fence.  (A line that starts with [#], or holds a CR, is kept.) *)
Theorem clean_lines_are_stripped response_text line :
  line ∈ Prepare.clean_lines response_text →
  line ≠ "" ∧ Str.strip line = line ∧ Str.has_char Str.LF line = false
  ∧ Str.startswith "```" line = false.
Proof. apply clean_lines_spec. Qed.

Lemma clean_lines_are_stripped_witness :
  let response_text :=
    "```" +:+ Str.nl +:+ "  .venv  " +:+ Str.nl +:+ Str.nl +:+ "```" +:+ Str.nl in
  ".venv" ∈ Prepare.clean_lines response_text ∧ Str.strip ".venv" = ".venv".
Proof.
  intros response_text.
  assert (".venv" ∈ Prepare.clean_lines response_text) as Hin
    by (vm_compute; apply list_elem_of_here).
  split; [exact Hin|].
  apply (clean_lines_are_stripped response_text ".venv" Hin).
Defined.
